(** * get_current_name.py: resolution of taxonomic names against MycoBank

    A shallow embedding of [src/get_current_name.py] and the properties of
    its loader, batcher and resolution classifier.

    Modelling conventions.
    - A Python [str] is a [string] of 8-bit characters; [str.lower] and
      [str.strip] are modelled on the ASCII range (the letters A-Z, and the
      white space characters 0x09-0x0d, 0x1c-0x20); other characters are left
      alone.
    - A value decoded from JSON is a [pyval]; numbers are integers.
    - A Python exception is a constructor of [exn]; a function that may raise
      returns a [res].
    - The authority is a pair of functions from a request to its response:
      the same request always has the same response.
    - What is printed ([verbose] messages, the progress bar) and the writing
      of the two TSV files are left out: the rows written are the [results]
      of the run, and [print_progress] is only called after a name has been
      processed, when [total_species] is not 0. *)

From Stdlib Require Import String Ascii List ZArith Lia Bool Arith.
From Equations Require Import Equations.
Import ListNotations.

Local Open Scope string_scope.
Local Open Scope list_scope.

(* ===================================================================== *)
(** ** Python strings *)
(* ===================================================================== *)

Module PyStr.

(** [c.isspace()] on the ASCII range. *)
Definition isspace (c : ascii) : bool :=
  let n := nat_of_ascii c in
  (((9 <=? n) && (n <=? 13)) || ((28 <=? n) && (n <=? 32)))%nat.

Definition lower_char (c : ascii) : ascii :=
  let n := nat_of_ascii c in
  if ((65 <=? n) && (n <=? 90))%nat then ascii_of_nat (n + 32) else c.

(** [s.lower()] *)
Fixpoint lower (s : string) : string :=
  match s with
  | EmptyString => EmptyString
  | String c s' => String (lower_char c) (lower s')
  end.

Fixpoint lstrip (s : string) : string :=
  match s with
  | EmptyString => EmptyString
  | String c s' => if isspace c then lstrip s' else s
  end.

Fixpoint rstrip (s : string) : string :=
  match s with
  | EmptyString => EmptyString
  | String c s' =>
      match rstrip s' with
      | EmptyString => if isspace c then EmptyString else String c EmptyString
      | r => String c r
      end
  end.

(** [s.strip()] *)
Definition strip (s : string) : string := rstrip (lstrip s).

(** [needle in hay] for two strings: [needle] occurs as a substring. *)
Fixpoint contains (needle hay : string) : bool :=
  prefix needle hay ||
  match hay with
  | EmptyString => false
  | String _ hay' => contains needle hay'
  end.

(** [x in l] for a string and a list of strings. *)
Definition mem (x : string) (l : list string) : bool :=
  existsb (String.eqb x) l.

(** [sep.join(l)] *)
Definition join (sep : string) (l : list string) : string :=
  String.concat sep l.

End PyStr.

(* ===================================================================== *)
(** ** Exceptions *)
(* ===================================================================== *)

Inductive exn : Type :=
| ValueError
| KeyError
| AttributeError
| TypeError
| JSONDecodeError.

Inductive res (A : Type) : Type :=
| Ok (a : A)
| Raise (e : exn).
Arguments Ok {A} a.
Arguments Raise {A} e.

Definition bind {A B : Type} (m : res A) (k : A -> res B) : res B :=
  match m with
  | Ok a => k a
  | Raise e => Raise e
  end.

Notation "x <- m ;; k" := (bind m (fun x => k))
  (at level 61, m at next level, right associativity).

(** Evaluate [f] on the elements of a list from left to right and stop at the
    first exception: a list comprehension whose element expression may
    raise. *)
Fixpoint mapM {A B : Type} (f : A -> res B) (l : list A) : res (list B) :=
  match l with
  | [] => Ok []
  | a :: l' => b <- f a ;; bs <- mapM f l' ;; Ok (b :: bs)
  end.

(* ===================================================================== *)
(** ** Input loader and filter: [read_species_list] *)
(* ===================================================================== *)

Inductive reason : Type := user_excluded | ambiguous.

Definition excluded_characters : list string :=
  ["["; "]"; "sp."; "cf."; "aff."].

(** The local variables of [read_species_list] that the loop updates. The
    function returns [species_to_check] and the two counters, and writes
    [excluded_rows] to the side file. *)
Record loader : Type := {
  species_to_check : list string;
  excluded_rows : list (string * reason);
  excluded_user_count : nat;
  excluded_ambig_count : nat
}.

Definition loader_init : loader :=
  {| species_to_check := []; excluded_rows := [];
     excluded_user_count := 0; excluded_ambig_count := 0 |}.

(** The disposition of a stripped, non-blank line (lines 62-69). *)
Definition disposition (excluded_species : list string) (sp : string)
  : option reason :=
  if PyStr.mem sp excluded_species then Some user_excluded
  else if existsb (fun char => PyStr.contains char sp) excluded_characters
       then Some ambiguous
       else None.

(** One iteration of [for line in f] (lines 58-78). *)
Definition loader_step (excluded_species : list string) (st : loader)
  (line : string) : loader :=
  let sp := PyStr.strip line in
  if String.eqb sp "" then st
  else
    match disposition excluded_species sp with
    | Some user_excluded =>
        {| species_to_check := species_to_check st;
           excluded_rows := excluded_rows st ++ [(sp, user_excluded)];
           excluded_user_count := S (excluded_user_count st);
           excluded_ambig_count := excluded_ambig_count st |}
    | Some ambiguous =>
        {| species_to_check := species_to_check st;
           excluded_rows := excluded_rows st ++ [(sp, ambiguous)];
           excluded_user_count := excluded_user_count st;
           excluded_ambig_count := S (excluded_ambig_count st) |}
    | None =>
        {| species_to_check := species_to_check st ++ [sp];
           excluded_rows := excluded_rows st;
           excluded_user_count := excluded_user_count st;
           excluded_ambig_count := excluded_ambig_count st |}
    end.

(** [read_species_list(file_path, excluded_species)] where [lines] are the
    lines of the file at [file_path], in file order. *)
Definition read_species_list (lines : list string)
  (excluded_species : list string) : loader :=
  fold_left (loader_step excluded_species) lines loader_init.

(** The lines that [main] counts as the total (line 312) and the exclusion
    list it reads (line 295). *)
Definition non_blank (lines : list string) : list string :=
  filter (fun line => negb (String.eqb (PyStr.strip line) "")) lines.

Definition read_exclusion_list (lines : list string) : list string :=
  map PyStr.strip (non_blank lines).

(* ===================================================================== *)
(** ** Batcher: [batch] *)
(* ===================================================================== *)

(** [sys.maxsize] of a 64-bit CPython: [islice] refuses a larger stop. *)
Definition sys_maxsize : Z := 2 ^ 63 - 1.

Definition inspect {A : Type} (a : A) : { b : A | a = b } :=
  exist _ a eq_refl.

(** The [while True] loop of [batch] (lines 95-99): [it] is what the
    iterator has not yet produced; [islice(it, n)] takes the next [n]
    elements and leaves the rest. *)
Equations? batch_loop {A : Type} (n : nat) (it : list A) : list (list A)
  by wf (List.length it) lt :=
  batch_loop n it with inspect (firstn n it) := {
    | exist _ [] _ := [];
    | exist _ (x :: chunk) Hchunk := (x :: chunk) :: batch_loop n (skipn n it) }.
Proof.
  destruct n as [|n]; [discriminate|].
  destruct it as [|a it]; [discriminate|].
  rewrite List.length_skipn. simpl. lia.
Qed.

(** [list(batch(iterable, n))]: the batches the generator yields, or the
    [ValueError] that [islice] raises for a stop that is negative or larger
    than [sys.maxsize]. *)
Definition batch {A : Type} (iterable : list A) (n : Z) : res (list (list A)) :=
  if (n <? 0)%Z || (sys_maxsize <? n)%Z then Raise ValueError
  else Ok (batch_loop (Z.to_nat n) iterable).

(* ===================================================================== *)
(** ** Values decoded from JSON *)
(* ===================================================================== *)

(** What [response.json()] can return. A [PDict] lists the items of the
    dictionary, each key once. *)
#[warnings="-register-all"]
Inductive pyval : Type :=
| PNone
| PBool (b : bool)
| PInt (z : Z)
| PStr (s : string)
| PList (l : list pyval)
| PDict (d : list (string * pyval)).

Fixpoint dict_get (d : list (string * pyval)) (k : string) : option pyval :=
  match d with
  | [] => None
  | (k', v) :: d' => if String.eqb k k' then Some v else dict_get d' k
  end.

(** [a == b] *)
Fixpoint py_eq (a b : pyval) {struct a} : bool :=
  match a, b with
  | PNone, PNone => true
  | PBool x, PBool y => Bool.eqb x y
  | PBool x, PInt y => (Z.b2z x =? y)%Z
  | PInt x, PBool y => (x =? Z.b2z y)%Z
  | PInt x, PInt y => (x =? y)%Z
  | PStr x, PStr y => String.eqb x y
  | PList xs, PList ys =>
      (fix all2 (xs ys : list pyval) {struct xs} : bool :=
         match xs, ys with
         | [], [] => true
         | x :: xs', y :: ys' => py_eq x y && all2 xs' ys'
         | _, _ => false
         end) xs ys
  | PDict xs, PDict ys =>
      (List.length xs =? List.length ys)%nat &&
      (fix sub (xs : list (string * pyval)) {struct xs} : bool :=
         match xs with
         | [] => true
         | (k, v) :: xs' =>
             match dict_get ys k with
             | Some w => py_eq v w && sub xs'
             | None => false
             end
         end) xs
  | _, _ => false
  end.

(** [bool(v)]: [not v] is its negation. *)
Definition truthy (v : pyval) : bool :=
  match v with
  | PNone => false
  | PBool b => b
  | PInt z => negb (z =? 0)%Z
  | PStr s => negb (String.eqb s "")
  | PList l => match l with [] => false | _ => true end
  | PDict d => match d with [] => false | _ => true end
  end.

(** [v.get(k, default)] *)
Definition py_get (v : pyval) (k : string) (default : pyval) : res pyval :=
  match v with
  | PDict d =>
      Ok (match dict_get d k with Some x => x | None => default end)
  | _ => Raise AttributeError
  end.

(** [v[k]] for a string [k] *)
Definition py_getitem (v : pyval) (k : string) : res pyval :=
  match v with
  | PDict d =>
      match dict_get d k with Some x => Ok x | None => Raise KeyError end
  | _ => Raise TypeError
  end.

(** [v.strip()] and [v.lower()] *)
Definition py_strip (v : pyval) : res pyval :=
  match v with
  | PStr s => Ok (PStr (PyStr.strip s))
  | _ => Raise AttributeError
  end.

Definition py_lower (v : pyval) : res pyval :=
  match v with
  | PStr s => Ok (PStr (PyStr.lower s))
  | _ => Raise AttributeError
  end.

(** [v in l] for a list display [l] *)
Definition py_in (v : pyval) (l : list pyval) : bool :=
  existsb (py_eq v) l.

(** The elements that [for item in v] visits. *)
Definition py_iter (v : pyval) : res (list pyval) :=
  match v with
  | PList l => Ok l
  | PDict d => Ok (map (fun kv => PStr (fst kv)) d)
  | PStr s => Ok (map (fun c => PStr (String c "")) (list_ascii_of_string s))
  | _ => Raise TypeError
  end.

(** A list comprehension with a condition that may raise. *)
Fixpoint filterM {A : Type} (f : A -> res bool) (l : list A) : res (list A) :=
  match l with
  | [] => Ok []
  | a :: l' =>
      keep <- f a ;; rest <- filterM f l' ;;
      Ok (if keep then a :: rest else rest)
  end.

(** A [for] loop whose body updates a state and may raise. *)
Fixpoint foldM {A S : Type} (f : S -> A -> res S) (l : list A) (st : S)
  : res S :=
  match l with
  | [] => Ok st
  | a :: l' => st' <- f st a ;; foldM f l' st'
  end.

(* ===================================================================== *)
(** ** The authority *)
(* ===================================================================== *)

(** A response of [requests.get]: its status code, and its body decoded as
    JSON when it can be. *)
Record response : Type := {
  status_code : Z;
  body : option pyval
}.

(** [response.json()] *)
Definition json (r : response) : res pyval :=
  match body r with
  | Some v => Ok v
  | None => Raise JSONDecodeError
  end.

(** The two requests of the script: the batch query, answered from its
    [filter] parameter, and the point lookup at [BASE_URL/current_id],
    answered from the identifier. A request that gets no response at all
    raises inside [requests.get] and is not modelled. *)
Record authority : Type := {
  batch_get : string -> response;
  point_get : pyval -> response
}.

(* ===================================================================== *)
(** ** Resolution classifier: [get_current_names_batch] *)
(* ===================================================================== *)

Inductive status : Type :=
| current
| not_current
| no_records
| no_valid
| no_current
| multiple_records
| error.

(** A row [[species, status, current_name]] of [results]. *)
Record row : Type := {
  row_query : string;
  row_status : status;
  row_name : pyval
}.

Definition NA : pyval := PStr "NA".
Definition unknown : pyval := PStr "<unknown>".

(** The [summary] dictionary. *)
Record summary : Type := {
  n_current : nat;
  n_not_current : nat;
  n_no_records : nat;
  n_no_valid : nat;
  n_no_current : nat;
  n_multiple_records : nat;
  n_error : nat
}.

Definition summary_init : summary :=
  {| n_current := 0; n_not_current := 0; n_no_records := 0; n_no_valid := 0;
     n_no_current := 0; n_multiple_records := 0; n_error := 0 |}.

(** [summary[st] += 1] *)
Definition bump (st : status) (s : summary) : summary :=
  match st with
  | current =>
      {| n_current := S (n_current s); n_not_current := n_not_current s;
         n_no_records := n_no_records s; n_no_valid := n_no_valid s;
         n_no_current := n_no_current s;
         n_multiple_records := n_multiple_records s; n_error := n_error s |}
  | not_current =>
      {| n_current := n_current s; n_not_current := S (n_not_current s);
         n_no_records := n_no_records s; n_no_valid := n_no_valid s;
         n_no_current := n_no_current s;
         n_multiple_records := n_multiple_records s; n_error := n_error s |}
  | no_records =>
      {| n_current := n_current s; n_not_current := n_not_current s;
         n_no_records := S (n_no_records s); n_no_valid := n_no_valid s;
         n_no_current := n_no_current s;
         n_multiple_records := n_multiple_records s; n_error := n_error s |}
  | no_valid =>
      {| n_current := n_current s; n_not_current := n_not_current s;
         n_no_records := n_no_records s; n_no_valid := S (n_no_valid s);
         n_no_current := n_no_current s;
         n_multiple_records := n_multiple_records s; n_error := n_error s |}
  | no_current =>
      {| n_current := n_current s; n_not_current := n_not_current s;
         n_no_records := n_no_records s; n_no_valid := n_no_valid s;
         n_no_current := S (n_no_current s);
         n_multiple_records := n_multiple_records s; n_error := n_error s |}
  | multiple_records =>
      {| n_current := n_current s; n_not_current := n_not_current s;
         n_no_records := n_no_records s; n_no_valid := n_no_valid s;
         n_no_current := n_no_current s;
         n_multiple_records := S (n_multiple_records s);
         n_error := n_error s |}
  | error =>
      {| n_current := n_current s; n_not_current := n_not_current s;
         n_no_records := n_no_records s; n_no_valid := n_no_valid s;
         n_no_current := n_no_current s;
         n_multiple_records := n_multiple_records s;
         n_error := S (n_error s) |}
  end.

(** The variables that the loops of [get_current_names_batch] update. *)
Record run_state : Type := {
  results : list row;
  counts : summary;
  processed_count : nat
}.

Definition run_init : run_state :=
  {| results := []; counts := summary_init; processed_count := 0 |}.

(** What every outcome does with its row: [results.append(...)],
    [summary[status] += 1], [processed_count += 1]. *)
Definition record_row (st : run_state) (r : row) : run_state :=
  {| results := results st ++ [r];
     counts := bump (row_status r) (counts st);
     processed_count := S (processed_count st) |}.

(** The [filter] parameter of the batch query (line 129). *)
Definition filter_str (species_batch : list string) : string :=
  PyStr.join " or "
    (map (fun sp => String.append "name startWith '" (String.append sp "'"))
         species_batch).

(** The condition of the comprehension of lines 156-160; [and] does not
    evaluate its right operand when the left one is false. *)
Definition name_matches (species : string) (item : pyval) : res bool :=
  name <- py_get item "name" (PStr "") ;;
  stripped <- py_strip name ;;
  lowered <- py_lower stripped ;;
  if py_eq lowered (PStr (PyStr.lower (PyStr.strip species))) then
    name_status <- py_get item "nameStatus" PNone ;;
    Ok (negb (py_in name_status [PStr "Illegitimate"; PStr "Invalid"]))
  else Ok false.

(** [sp.lower() in (item.get("name", "").lower() for item in items)]
    (line 165): the generator is consumed up to the first equal element. *)
Fixpoint lowered_name_in (target : string) (items : list pyval) : res bool :=
  match items with
  | [] => Ok false
  | item :: items' =>
      name <- py_get item "name" (PStr "") ;;
      lowered <- py_lower name ;;
      if py_eq (PStr target) lowered then Ok true
      else lowered_name_in target items'
  end.

(** [item.get("synonymy", {}).get("currentNameId")] *)
Definition current_name_id (item : pyval) : res pyval :=
  synonymy <- py_get item "synonymy" (PDict []) ;;
  py_get synonymy "currentNameId" PNone.

(** [all(cid == first_id for cid in current_ids)] with
    [first_id = current_ids[0]] *)
Definition all_agree (current_ids : list pyval) : bool :=
  forallb (fun cid => py_eq cid (hd PNone current_ids)) current_ids.

(** Lines 155-197 either settle the status of the name without looking at
    identifiers, or select the record [item] that lines 199-235 classify. *)
Inductive selection : Type :=
| Settled (st : status)
| Canonical (item : pyval).

Definition select_canonical (species : string) (items : list pyval)
  : res selection :=
  species_items <- filterM (name_matches species) items ;;
  match species_items with
  | [] =>
      found <- lowered_name_in (PyStr.lower species) items ;;
      Ok (Settled (if found then no_valid else no_records))
  | [item] => Ok (Canonical item)
  | item :: _ =>
      current_ids <- mapM current_name_id species_items ;;
      if all_agree current_ids then Ok (Canonical item)
      else Ok (Settled multiple_records)
  end.

(** Synonym resolver (lines 223-226): the accepted name and its MycoBank
    number; the status code of the response is not looked at. *)
Definition resolve_current (auth : authority) (current_id : pyval)
  : res (pyval * pyval) :=
  let response_current := point_get auth current_id in
  data_current <- json response_current ;;
  current_name <- py_get data_current "name" unknown ;;
  mycobank_number <- py_get data_current "mycobankNr" unknown ;;
  Ok (current_name, mycobank_number).

(** Lines 199-233 for the selected record. *)
Definition classify_item (auth : authority) (species : string) (item : pyval)
  : res row :=
  _id <- py_getitem item "id" ;;
  current_id <- current_name_id item ;;
  if negb (truthy current_id) then
    Ok {| row_query := species; row_status := no_current; row_name := NA |}
  else if py_eq _id current_id then
    current_name <- py_getitem item "name" ;;
    Ok {| row_query := species; row_status := current;
          row_name := current_name |}
  else
    resolved <- resolve_current auth current_id ;;
    Ok {| row_query := species; row_status := not_current;
          row_name := fst resolved |}.

(** The row that one iteration of [for species in species_batch] appends
    (lines 153-235); [items] is the value of [data.get("items", [])]. *)
Definition classify (auth : authority) (items : pyval) (species : string)
  : res row :=
  records <- py_iter items ;;
  sel <- select_canonical species records ;;
  match sel with
  | Settled st =>
      Ok {| row_query := species; row_status := st; row_name := NA |}
  | Canonical item => classify_item auth species item
  end.

Definition classify_step (auth : authority) (items : pyval) (st : run_state)
  (species : string) : res run_state :=
  r <- classify auth items species ;;
  Ok (record_row st r).

(** The failure branch (lines 137-145). *)
Definition mark_errors (st : run_state) (species_batch : list string)
  : run_state :=
  fold_left
    (fun st sp =>
       record_row st {| row_query := sp; row_status := error; row_name := NA |})
    species_batch st.

(** One iteration of [for species_batch in batch(...)] (lines 128-235). *)
Definition process_batch (auth : authority) (st : run_state)
  (species_batch : list string) : res run_state :=
  let response := batch_get auth (filter_str species_batch) in
  if negb (status_code response =? 200)%Z then
    Ok (mark_errors st species_batch)
  else
    data <- json response ;;
    items <- py_get data "items" (PList []) ;;
    foldM (classify_step auth items) species_batch st.

(** [get_current_names_batch(species_list, batch_size=...)]: the rows
    written to the report and the summary returned, or the exception that
    ends the run before anything is written. *)
Definition get_current_names_batch (auth : authority)
  (species_list : list string) (batch_size : Z) : res (list row * summary) :=
  batches <- batch species_list batch_size ;;
  st <- foldM (process_batch auth) batches run_init ;;
  Ok (results st, counts st).

(* ===================================================================== *)
(** ** Vocabulary of the properties *)
(* ===================================================================== *)

(** The lines of the input that are not blank, stripped, in file order. *)
Definition stripped_lines (lines : list string) : list string :=
  map PyStr.strip (non_blank lines).

Definition accepted (excluded_species : list string) (sp : string) : bool :=
  match disposition excluded_species sp with
  | None => true
  | Some _ => false
  end.

Definition exclusion_row (excluded_species : list string) (sp : string)
  : list (string * reason) :=
  match disposition excluded_species sp with
  | None => []
  | Some r => [(sp, r)]
  end.

(** The two tests of the loader, in the order it applies them. *)
Definition on_exclusion_list (excluded_species : list string) (sp : string)
  : bool :=
  PyStr.mem sp excluded_species.

Definition has_marker (sp : string) : bool :=
  existsb (fun char => PyStr.contains char sp) excluded_characters.

Definition is_user_excluded (r : string * reason) : bool :=
  match snd r with user_excluded => true | ambiguous => false end.

Definition is_ambiguous (r : string * reason) : bool :=
  match snd r with user_excluded => false | ambiguous => true end.

(** The name of a record as the comparisons of the classifier read it
    ([item.get("name", "")]), when it is a string. *)
Definition record_name (item : pyval) : option string :=
  match item with
  | PDict d =>
      match dict_get d "name" with
      | None => Some ""
      | Some (PStr s) => Some s
      | Some _ => None
      end
  | _ => None
  end.

(** A record on which the comparisons of the classifier do not raise. *)
Definition named_record (item : pyval) : bool :=
  match record_name item with
  | Some _ => true
  | None => false
  end.

(** The record bears the name of the query, letter case apart. *)
Definition bears_name (species : string) (item : pyval) : bool :=
  match record_name item with
  | Some s => String.eqb (PyStr.lower s) (PyStr.lower species)
  | None => false
  end.

(** The record bears the name of the query, letter case and surrounding
    white space apart. *)
Definition same_name (species : string) (item : pyval) : bool :=
  match record_name item with
  | Some s =>
      String.eqb (PyStr.lower (PyStr.strip s))
                 (PyStr.lower (PyStr.strip species))
  | None => false
  end.

(** The record is illegitimate or invalid. *)
Definition excluded_status (item : pyval) : bool :=
  match item with
  | PDict d =>
      py_in (match dict_get d "nameStatus" with Some v => v | None => PNone end)
            [PStr "Illegitimate"; PStr "Invalid"]
  | _ => false
  end.


(** The statuses of a run, in the order of the report. *)
Definition statuses (r : res (list row * summary)) : res (list status) :=
  rs <- r ;; Ok (map row_status (fst rs)).

(* ===================================================================== *)
(** ** Sample inputs *)
(* ===================================================================== *)

Module Sample.

Definition record (name : string) (id current_id : Z) : pyval :=
  PDict [("id", PInt id); ("name", PStr name);
         ("nameStatus", PStr "Legitimate");
         ("synonymy", PDict [("currentNameId", PInt current_id)]);
         ("mycobankNr", PInt (id + 1000))].

Definition items_body (items : list pyval) : response :=
  {| status_code := 200; body := Some (PDict [("items", PList items)]) |}.

Definition amanita : pyval := record "Amanita muscaria" 100 100.
Definition boletus : pyval := record "Boletus edulis" 7 200.

(** An authority that returns its two records to every batch query and
    knows the accepted name of record 200. *)
Definition auth_db : authority :=
  {| batch_get := fun _ => items_body [amanita; boletus];
     point_get := fun id =>
       if py_eq id (PInt 200) then
         {| status_code := 200;
            body := Some (PDict [("name", PStr "Boletus edulis var. albus");
                                 ("mycobankNr", PInt 1200)]) |}
       else {| status_code := 404; body := Some (PDict []) |} |}.

(** The same records, but the point lookup answers with a page that is not
    JSON. *)
Definition auth_broken_link : authority :=
  {| batch_get := fun _ => items_body [amanita; boletus];
     point_get := fun _ => {| status_code := 502; body := None |} |}.

(** The same records, but the point lookup answers 404 with a JSON object
    that has no [name]. *)
Definition auth_missing_link : authority :=
  {| batch_get := fun _ => items_body [amanita; boletus];
     point_get := fun _ =>
       {| status_code := 404;
          body := Some (PDict [("message", PStr "Not found")]) |} |}.

(** An authority that refuses a filter naming both species and answers a
    filter naming one. *)
Definition auth_short_filters : authority :=
  {| batch_get := fun filter =>
       if String.eqb filter
            "name startWith 'Amanita muscaria' or name startWith 'Boletus edulis'"
       then {| status_code := 414; body := None |}
       else items_body [amanita; boletus];
     point_get := point_get auth_db |}.

(** An authority whose batch query always fails. *)
Definition auth_down : authority :=
  {| batch_get := fun _ => {| status_code := 503; body := None |};
     point_get := fun _ => {| status_code := 503; body := None |} |}.

Definition two_species : list string := ["Amanita muscaria"; "Boletus edulis"].

(** A name that the authority only has as an invalid one. *)
Definition invalid_amanita : pyval :=
  PDict [("id", PInt 300); ("name", PStr "Amanita muscaria");
         ("nameStatus", PStr "Invalid");
         ("synonymy", PDict [("currentNameId", PInt 100)])].

Definition amanita_other : pyval := record "Amanita muscaria" 102 300.

(** A record whose identifier and current-name identifier are both 0. *)
Definition zero_ids : pyval := record "Amanita muscaria" 0 0.

(** A line of a text file, with its end of line. *)
Definition line (s : string) : string := String.append s (String "010"%char "").

(** A name list in which one name comes twice. *)
Definition repeated_lines : list string :=
  [line "Amanita muscaria"; line "Boletus edulis"; line "Amanita muscaria"].

(** The name list of the scenario of section 8, with a blank line and a
    name of the exclusion list added. *)
Definition mixed_lines : list string :=
  [line "Amanita muscaria"; line "Amanita sp."; line "";
   line "Boletus edulis [cf.]"; line "  Russula emetica "; "Boletus sp."].

Definition exclusions : list string := ["Russula emetica"; "Boletus sp."].

End Sample.

(* ===================================================================== *)
(** ** Entry point: [main] *)
(* ===================================================================== *)

(** What [main] writes and prints (lines 292-322): the rows of the report
    and the numbers of the final summary. *)
Record main_output : Type := {
  report : list row;
  total : nat;
  excluded_user : nat;
  excluded_ambig : nat;
  queried : nat;
  query_results : summary
}.

(** [main()] for the species file [species_lines]; [exclude_lines] are the
    lines of the file given with [--exclude], if one is given. *)
Definition main (auth : authority) (species_lines : list string)
  (exclude_lines : option (list string)) (batch_size : Z) : res main_output :=
  let excluded_species :=
    match exclude_lines with
    | Some ls => read_exclusion_list ls
    | None => []
    end in
  let loaded := read_species_list species_lines excluded_species in
  run <- get_current_names_batch auth (species_to_check loaded) batch_size ;;
  Ok {| report := fst run;
        total := length (non_blank species_lines);
        excluded_user := excluded_user_count loaded;
        excluded_ambig := excluded_ambig_count loaded;
        queried := length (species_to_check loaded);
        query_results := snd run |}.

(* ===================================================================== *)
(** ** Vocabulary of the further properties *)
(* ===================================================================== *)

(** [needle] occurs in [hay]. *)
Definition substring (needle hay : string) : Prop :=
  exists pre post, hay = String.append pre (String.append needle post).

(** The summary recomputed from the rows of a report. *)
Definition tally (rows : list row) : summary :=
  fold_left (fun s r => bump (row_status r) s) rows summary_init.

Definition summary_total (s : summary) : nat :=
  n_current s + n_not_current s + n_no_records s + n_no_valid s
  + n_no_current s + n_multiple_records s + n_error s.

(** [st'] is [st] after the rows [new] have been recorded. *)
Definition extends (st st' : run_state) (new : list row) : Prop :=
  results st' = results st ++ new /\
  counts st' = fold_left (fun s r => bump (row_status r) s) new (counts st) /\
  processed_count st' = processed_count st + length new.




(** The status and the resolved name of a classification, or its
    exception. *)
Definition outcome (r : res row) : res (status * pyval) :=
  x <- r ;; Ok (row_status x, row_name x).

(** The answer to a batch query cannot be read as a JSON object: it is not
    JSON, or it is JSON of another kind. *)
Definition unreadable (r : response) : Prop :=
  body r = None \/
  exists v, body r = Some v /\ forall d, v <> PDict d.

(** What a row of the report holds for a resolved name: the name of a
    record, a string, for [current]; what the point lookup returned for
    [not_current]; "NA" for every other status. *)
Definition row_format (r : row) : Prop :=
  match row_status r with
  | current => exists name, row_name r = PStr name
  | not_current => True
  | _ => row_name r = NA
  end.

(** The records that are neither illegitimate nor invalid. *)
Definition valid_records (records : list pyval) : list pyval :=
  filter (fun i => negb (excluded_status i)) records.

Module MoreSamples.

(** [Sample.auth_db] with every point lookup answered 500 and the same
    body. *)
Definition auth_db_500 : authority :=
  {| batch_get := batch_get Sample.auth_db;
     point_get := fun id =>
       {| status_code := 500; body := body (point_get Sample.auth_db id) |} |}.

(** A record whose name is null. *)
Definition nameless : pyval :=
  PDict [("id", PInt 9); ("name", PNone)].

(** An authority that returns the nameless record among the others. *)
Definition auth_nameless : authority :=
  {| batch_get := fun _ =>
       Sample.items_body [Sample.amanita; nameless; Sample.boletus];
     point_get := point_get Sample.auth_db |}.

(** An authority that answers 200 with a page that is not JSON. *)
Definition auth_html : authority :=
  {| batch_get := fun _ => {| status_code := 200; body := None |};
     point_get := point_get Sample.auth_db |}.

End MoreSamples.

(* ===================================================================== *)
(** * Properties *)
(* ===================================================================== *)

(** ** Strings *)

Lemma isspace_lower_char (c : ascii) :
  PyStr.isspace (PyStr.lower_char c) = PyStr.isspace c.
Proof.
  destruct c as [[] [] [] [] [] [] [] []]; vm_compute; reflexivity.
Qed.

Lemma lower_empty (s : string) : PyStr.lower s = "" -> s = "".
Proof. destruct s; [reflexivity | discriminate]. Qed.

Lemma lower_lstrip (s : string) :
  PyStr.lower (PyStr.lstrip s) = PyStr.lstrip (PyStr.lower s).
Proof.
  induction s as [|c s IH]; simpl; [reflexivity|].
  rewrite isspace_lower_char.
  destruct (PyStr.isspace c); [exact IH | reflexivity].
Qed.

Lemma lower_rstrip (s : string) :
  PyStr.lower (PyStr.rstrip s) = PyStr.rstrip (PyStr.lower s).
Proof.
  induction s as [|c s IH]; simpl; [reflexivity|].
  rewrite <- IH, isspace_lower_char.
  destruct (PyStr.rstrip s) as [|c' r]; simpl.
  - destruct (PyStr.isspace c); reflexivity.
  - reflexivity.
Qed.

(** Lower-casing and stripping commute. *)
Lemma lower_strip (s : string) :
  PyStr.lower (PyStr.strip s) = PyStr.strip (PyStr.lower s).
Proof.
  unfold PyStr.strip. now rewrite lower_rstrip, lower_lstrip.
Qed.

(** Two names that are equal up to letter case are equal up to letter case
    and surrounding white space. *)
Lemma lower_eq_strip (s t : string) :
  PyStr.lower s = PyStr.lower t ->
  PyStr.lower (PyStr.strip s) = PyStr.lower (PyStr.strip t).
Proof. intros H. now rewrite !lower_strip, H. Qed.

(** ** Loader *)

Lemma stripped_lines_cons (line : string) (lines : list string) :
  stripped_lines (line :: lines)
  = if String.eqb (PyStr.strip line) "" then stripped_lines lines
    else PyStr.strip line :: stripped_lines lines.
Proof.
  unfold stripped_lines, non_blank. simpl.
  destruct (String.eqb (PyStr.strip line) ""); reflexivity.
Qed.

Lemma loader_fold (excl : list string) (lines : list string) (st : loader) :
  let st' := fold_left (loader_step excl) lines st in
  let rows := flat_map (exclusion_row excl) (stripped_lines lines) in
  species_to_check st'
    = species_to_check st ++ filter (accepted excl) (stripped_lines lines) /\
  excluded_rows st' = excluded_rows st ++ rows /\
  excluded_user_count st'
    = excluded_user_count st + length (filter is_user_excluded rows) /\
  excluded_ambig_count st'
    = excluded_ambig_count st + length (filter is_ambiguous rows).
Proof.
  revert st. induction lines as [|line lines IH]; intros st.
  - simpl. rewrite !app_nil_r. repeat split; try reflexivity; lia.
  - specialize (IH (loader_step excl st line)).
    cbv zeta in IH |- *. destruct IH as (IH1 & IH2 & IH3 & IH4).
    change (fold_left (loader_step excl) (line :: lines) st)
      with (fold_left (loader_step excl) lines (loader_step excl st line)).
    rewrite IH1, IH2, IH3, IH4, stripped_lines_cons.
    clear IH1 IH2 IH3 IH4.
    remember (stripped_lines lines) as rest eqn:Hrest. clear Hrest.
    unfold loader_step.
    destruct (String.eqb (PyStr.strip line) ""); [repeat split; reflexivity|].
    simpl flat_map. simpl filter.
    remember (flat_map (exclusion_row excl) rest) as rows eqn:Hrows.
    remember (filter (accepted excl) rest) as acc eqn:Hacc.
    clear Hrows Hacc.
    unfold accepted, exclusion_row.
    destruct (disposition excl (PyStr.strip line)) as [[]|]; simpl;
      rewrite <- ?app_assoc; simpl; repeat split; try reflexivity; lia.
Qed.

Lemma read_species_list_eq (excl lines : list string) :
  let st := read_species_list lines excl in
  let rows := flat_map (exclusion_row excl) (stripped_lines lines) in
  species_to_check st = filter (accepted excl) (stripped_lines lines) /\
  excluded_rows st = rows /\
  excluded_user_count st = length (filter is_user_excluded rows) /\
  excluded_ambig_count st = length (filter is_ambiguous rows).
Proof.
  exact (loader_fold excl lines loader_init).
Qed.

Lemma rows_length (excl : list string) (l : list string) :
  length (filter (accepted excl) l) + length (flat_map (exclusion_row excl) l)
  = length l.
Proof.
  induction l as [|sp l IH]; simpl; [reflexivity|].
  rewrite length_app. unfold accepted at 1, exclusion_row at 1.
  destruct (disposition excl sp); simpl; lia.
Qed.

Lemma accepted_eq (excl : list string) (sp : string) :
  accepted excl sp = negb (on_exclusion_list excl sp) && negb (has_marker sp).
Proof.
  unfold accepted, disposition, on_exclusion_list, has_marker.
  destruct (PyStr.mem sp excl); [reflexivity|].
  destruct (existsb _ excluded_characters); reflexivity.
Qed.

Lemma exclusion_row_eq (excl : list string) (sp : string) :
  exclusion_row excl sp
  = if on_exclusion_list excl sp then [(sp, user_excluded)]
    else if has_marker sp then [(sp, ambiguous)] else [].
Proof.
  unfold exclusion_row, disposition, on_exclusion_list, has_marker.
  destruct (PyStr.mem sp excl); [reflexivity|].
  destruct (existsb _ excluded_characters); reflexivity.
Qed.

Lemma rows_reasons (excl : list string) (l : list string) :
  let rows := flat_map (exclusion_row excl) l in
  length (filter is_user_excluded rows)
    = length (filter (on_exclusion_list excl) l) /\
  length (filter is_ambiguous rows)
    = length (filter (fun sp => negb (on_exclusion_list excl sp)
                                && has_marker sp) l) /\
  length (filter (accepted excl) l)
    = length (filter (fun sp => negb (on_exclusion_list excl sp)
                                && negb (has_marker sp)) l).
Proof.
  induction l as [|sp l IH]; [simpl; auto|].
  cbv zeta in IH |- *. destruct IH as (IH1 & IH2 & IH3).
  simpl. rewrite !filter_app, !length_app, IH1, IH2.
  rewrite accepted_eq, exclusion_row_eq.
  destruct (on_exclusion_list excl sp); simpl;
    [|destruct (has_marker sp); simpl]; rewrite ?IH3; auto.
Qed.

Lemma reasons_split (rows : list (string * reason)) :
  length (filter is_user_excluded rows) + length (filter is_ambiguous rows)
  = length rows.
Proof.
  induction rows as [|[sp r] rows IH]; [reflexivity|].
  destruct r; cbn [filter is_user_excluded is_ambiguous snd length]; lia.
Qed.

(** The scenario of section 8, with a blank line and two names of an
    exclusion list added. *)
Example loader_scenario :
  read_species_list Sample.mixed_lines Sample.exclusions
  = {| species_to_check := ["Amanita muscaria"];
       excluded_rows :=
         [("Amanita sp.", ambiguous); ("Boletus edulis [cf.]", ambiguous);
          ("Russula emetica", user_excluded); ("Boletus sp.", user_excluded)];
       excluded_user_count := 2;
       excluded_ambig_count := 2 |}.
Proof. reflexivity. Qed.

(** C3 (as stated): no name occurs twice in the query list. The loader keeps
    a name as often as the file has it. *)
Lemma C3_query_list_keeps_duplicates :
  species_to_check (read_species_list Sample.repeated_lines [])
    = ["Amanita muscaria"; "Boletus edulis"; "Amanita muscaria"] /\
  ~ NoDup (species_to_check (read_species_list Sample.repeated_lines [])).
Proof.
  split; [reflexivity|].
  change (~ NoDup ["Amanita muscaria"; "Boletus edulis"; "Amanita muscaria"]).
  intros H. inversion H as [|x l Hnotin _]; subst.
  apply Hnotin. right. left. reflexivity.
Qed.

(** C3 (amended): the query list is the sequence, in file order, of the
    stripped non-blank lines that are neither on the exclusion list nor carry
    an ambiguity marker; a line of the file is neither dropped nor merged
    with an equal one. *)
Theorem C3_query_list_file_order (lines excl : list string) :
  species_to_check (read_species_list lines excl)
  = filter (fun sp => negb (on_exclusion_list excl sp) && negb (has_marker sp))
           (stripped_lines lines).
Proof.
  destruct (read_species_list_eq excl lines) as (H & _). rewrite H.
  apply filter_ext. intros sp. apply accepted_eq.
Qed.

(** C4: every non-blank line is counted once, as excluded by the user when
    it is on the exclusion list, else as ambiguous when it carries a marker,
    else as a query; the query list and the excluded rows together are as
    many as the non-blank lines. *)
Theorem C4_loader_partition (lines excl : list string) :
  let st := read_species_list lines excl in
  let names := stripped_lines lines in
  length (species_to_check st) + length (excluded_rows st)
    = length (non_blank lines) /\
  excluded_user_count st + excluded_ambig_count st
    = length (excluded_rows st) /\
  excluded_user_count st = length (filter (on_exclusion_list excl) names) /\
  excluded_ambig_count st
    = length (filter (fun sp => negb (on_exclusion_list excl sp)
                                && has_marker sp) names) /\
  length (species_to_check st)
    = length (filter (fun sp => negb (on_exclusion_list excl sp)
                                && negb (has_marker sp)) names).
Proof.
  cbv zeta.
  destruct (read_species_list_eq excl lines) as (H1 & H2 & H3 & H4).
  cbv zeta in H2, H3, H4.
  destruct (rows_reasons excl (stripped_lines lines)) as (R1 & R2 & R3).
  cbv zeta in R1, R2.
  pose proof (rows_length excl (stripped_lines lines)) as L.
  assert (Hn : length (stripped_lines lines) = length (non_blank lines))
    by apply length_map.
  pose proof (reasons_split
                (flat_map (exclusion_row excl) (stripped_lines lines)))
    as Hsplit.
  rewrite H1, H2, H3, H4. repeat split; try lia; assumption.
Qed.

(** ** Batcher *)

Section BatchLoop.
Context {A : Type}.

Lemma batch_loop_concat (n : nat) (l : list A) :
  0 < n -> concat (batch_loop n l) = l.
Proof.
  intros Hn. funelim (batch_loop n l).
  - destruct n as [|n]; [lia|].
    destruct it as [|a it]; [reflexivity | discriminate].
  - cbn [concat].
    match goal with
    | IH : 0 < _ -> concat _ = _, E : firstn _ _ = _ |- _ =>
        rewrite (IH Hn), <- E
    end.
    apply firstn_skipn.
Qed.

Lemma batch_loop_sizes (n : nat) (l : list A) :
  Forall (fun b => 0 < length b <= n) (batch_loop n l).
Proof.
  funelim (batch_loop n l).
  - constructor.
  - constructor; [|assumption].
    match goal with E : firstn _ _ = _ |- _ => rewrite <- E end.
    split.
    + match goal with E : firstn _ _ = _ |- _ => rewrite E end.
      simpl. lia.
    + apply firstn_le_length.
Qed.


Lemma batch_ok (l : list A) (n : Z) :
  (0 < n <= sys_maxsize)%Z -> batch l n = Ok (batch_loop (Z.to_nat n) l).
Proof.
  intros [Hlo Hhi]. unfold batch.
  destruct (Z.ltb_spec n 0); [lia|].
  destruct (Z.ltb_spec sys_maxsize n); [lia|].
  reflexivity.
Qed.
End BatchLoop.

(** C5 (as stated): for every batch size the batches concatenate to the
    query list. A batch size of 0 is accepted and yields no batch at all. *)
Lemma C5_batch_size_zero_drops_all :
  batch Sample.two_species 0 = Ok [] /\
  ~ (exists bs, batch Sample.two_species 0 = Ok bs /\
                concat bs = Sample.two_species).
Proof.
  split; [reflexivity|].
  intros (bs & Hbs & Hcat).
  change (batch Sample.two_species 0) with (@Ok (list (list string)) [])
    in Hbs.
  injection Hbs as <-. discriminate Hcat.
Qed.

(** C5 (amended): for every query list and every batch size from 1 to
    [sys.maxsize], the batcher yields non-empty batches of at most that size
    whose concatenation, in the order they are yielded, is the query list:
    no element is omitted, duplicated or moved. *)
Theorem C5_batches_concat {A : Type} (l : list A) (n : Z) :
  (0 < n <= sys_maxsize)%Z ->
  exists bs,
    batch l n = Ok bs /\
    concat bs = l /\
    Forall (fun b => (0 < Z.of_nat (length b) <= n)%Z) bs.
Proof.
  intros Hn. exists (batch_loop (Z.to_nat n) l).
  split; [apply batch_ok, Hn|].
  split; [apply batch_loop_concat; lia|].
  eapply Forall_impl; [|apply batch_loop_sizes].
  cbv beta. intros b Hb. lia.
Qed.

Lemma C5_batches_concat_witness :
  (0 < 2 <= sys_maxsize)%Z /\
  exists bs,
    batch ["Amanita muscaria"; "Boletus edulis"; "Russula emetica"] 2
      = Ok bs /\
    concat bs = ["Amanita muscaria"; "Boletus edulis"; "Russula emetica"] /\
    Forall (fun b => (0 < Z.of_nat (length b) <= 2)%Z) bs.
Proof.
  assert (H : (0 < 2 <= sys_maxsize)%Z) by (unfold sys_maxsize; lia).
  split; [exact H|].
  exact (C5_batches_concat
           ["Amanita muscaria"; "Boletus edulis"; "Russula emetica"] 2 H).
Defined.

(** ** Classifier: the comparisons on well-formed records *)

Lemma py_eq_str (s t : string) : py_eq (PStr s) (PStr t) = String.eqb s t.
Proof. reflexivity. Qed.

Lemma name_matches_named (species : string) (item : pyval) (s : string) :
  record_name item = Some s ->
  name_matches species item
  = Ok (same_name species item && negb (excluded_status item)).
Proof.
  unfold same_name. intros H. rewrite H.
  destruct item as [| | | |l|d]; try discriminate H.
  unfold record_name in H. unfold name_matches, excluded_status, py_get.
  destruct (dict_get d "name") as [[| | |name| |]|]; try discriminate H;
    injection H as <-; cbn [bind py_strip py_lower]; rewrite py_eq_str;
    destruct (String.eqb _ _); reflexivity.
Qed.

Lemma name_matches_unnamed (species : string) (item : pyval) :
  record_name item = None ->
  name_matches species item = Raise AttributeError.
Proof.
  intros H. destruct item as [| | | |l|d]; try reflexivity.
  unfold record_name in H. unfold name_matches, py_get.
  destruct (dict_get d "name") as [[| | |name| |]|]; try discriminate H;
    reflexivity.
Qed.

Lemma name_matches_cases (species : string) (item : pyval) :
  (named_record item = true /\
   name_matches species item
   = Ok (same_name species item && negb (excluded_status item))) \/
  (named_record item = false /\
   name_matches species item = Raise AttributeError).
Proof.
  unfold named_record. destruct (record_name item) as [s|] eqn:H.
  - left. split; [reflexivity|]. eapply name_matches_named, H.
  - right. split; [reflexivity|]. apply name_matches_unnamed, H.
Qed.

(** The comprehension of lines 156-160 returns exactly when every record
    has a string for a name, and then it is a filter. *)
Lemma filterM_name_matches (species : string) (items : list pyval) :
  forallb named_record items = true ->
  filterM (name_matches species) items
  = Ok (filter (fun i => same_name species i && negb (excluded_status i))
               items).
Proof.
  induction items as [|item items IH]; simpl; [reflexivity|].
  intros H. apply andb_true_iff in H as [Hi Hs].
  destruct (name_matches_cases species item) as [[_ E]|[E _]];
    [|congruence].
  rewrite E, (IH Hs). reflexivity.
Qed.

Lemma filterM_name_matches_inv (species : string) (items l : list pyval) :
  filterM (name_matches species) items = Ok l ->
  forallb named_record items = true.
Proof.
  revert l. induction items as [|item items IH]; simpl; [reflexivity|].
  intros l H.
  destruct (name_matches_cases species item) as [[Hn E]|[_ E]];
    rewrite E in H; [|discriminate H].
  cbn [bind] in H. rewrite Hn.
  destruct (filterM (name_matches species) items) as [l'|e] eqn:E';
    [|discriminate H].
  exact (IH l' eq_refl).
Qed.

Lemma lowered_name_in_named (species : string) (items : list pyval) :
  forallb named_record items = true ->
  lowered_name_in (PyStr.lower species) items
  = Ok (existsb (bears_name species) items).
Proof.
  induction items as [|item items IH]; [reflexivity|].
  cbn [lowered_name_in forallb existsb].
  intros H. apply andb_true_iff in H as [Hi Hs].
  unfold named_record in Hi. unfold bears_name at 1.
  destruct (record_name item) as [s|] eqn:E; [|discriminate Hi].
  destruct item as [| | | |l|d]; try discriminate E.
  unfold record_name in E. unfold py_get.
  destruct (dict_get d "name") as [[| | |name| |]|]; try discriminate E;
    injection E as <-; cbn [bind py_lower]; rewrite py_eq_str, String.eqb_sym;
    (destruct (String.eqb _ _); [reflexivity | apply IH, Hs]).
Qed.

(** A record that bears the name of the query letter case apart bears it
    letter case and white space apart. *)
Lemma bears_name_same_name (species : string) (item : pyval) :
  bears_name species item = true -> same_name species item = true.
Proof.
  unfold bears_name, same_name. destruct (record_name item) as [s|]; auto.
  intros H. apply String.eqb_eq in H. apply String.eqb_eq.
  now apply lower_eq_strip.
Qed.

(** ** Classifier: selection of the canonical record *)

Lemma species_items_eq (species : string) (records matches : list pyval) :
  filterM (name_matches species) records = Ok matches ->
  forallb named_record records = true /\
  matches = filter (fun i => same_name species i && negb (excluded_status i))
                   records.
Proof.
  intros H. pose proof (filterM_name_matches_inv _ _ _ H) as Hn.
  split; [exact Hn|].
  rewrite (filterM_name_matches species records Hn) in H.
  now injection H.
Qed.



(** The canonical record is one of the records of the response, bears the
    name of the query and is neither illegitimate nor invalid. *)
Lemma select_canonical_in (species : string) (records : list pyval)
  (item : pyval) :
  select_canonical species records = Ok (Canonical item) ->
  In item records /\ same_name species item = true /\
  excluded_status item = false.
Proof.
  unfold select_canonical.
  destruct (filterM (name_matches species) records) as [matches|e] eqn:H;
    [|discriminate].
  destruct (species_items_eq _ _ _ H) as [_ Hm]. cbn [bind].
  assert (Hin : forall i, In i matches ->
            In i records /\ same_name species i = true /\
            excluded_status i = false).
  { intros i Hi. rewrite Hm in Hi. apply filter_In in Hi as [Hi Hc].
    apply andb_true_iff in Hc as [Hs Hx]. apply negb_true_iff in Hx. auto. }
  destruct matches as [|first [|second rest]].
  - destruct (lowered_name_in _ _); cbn [bind]; discriminate.
  - intros [= <-]. apply Hin. left. reflexivity.
  - destruct (mapM current_name_id _) as [ids|e]; cbn [bind]; [|discriminate].
    destruct (all_agree ids); [|discriminate].
    intros [= <-]. apply Hin. left. reflexivity.
Qed.

Lemma classify_canonical (auth : authority) (items : pyval)
  (records : list pyval) (species : string) (item : pyval) :
  py_iter items = Ok records ->
  select_canonical species records = Ok (Canonical item) ->
  classify auth items species = classify_item auth species item.
Proof.
  intros Hi Hs. unfold classify. rewrite Hi. cbn [bind]. rewrite Hs.
  reflexivity.
Qed.


(** The statuses that lines 199-233 can give. *)
Lemma classify_item_status (auth : authority) (species : string)
  (item : pyval) (r : row) :
  classify_item auth species item = Ok r ->
  row_query r = species /\
  (row_status r = no_current \/ row_status r = current \/
   row_status r = not_current).
Proof.
  unfold classify_item.
  destruct (py_getitem item "id") as [id|e]; cbn [bind]; [|discriminate].
  destruct (current_name_id item) as [cid|e]; cbn [bind]; [|discriminate].
  destruct (negb (truthy cid)).
  - intros [= <-]. cbn. auto.
  - destruct (py_eq id cid).
    + destruct (py_getitem item "name") as [n|e]; cbn [bind]; [|discriminate].
      intros [= <-]. cbn. auto.
    + destruct (resolve_current auth cid) as [p|e]; cbn [bind];
        [|discriminate].
      intros [= <-]. cbn. auto.
Qed.






(** The scenario of section 8: two records of one name with the current-name
    identifiers 100 and 300. *)
Example multiple_records_scenario :
  classify Sample.auth_db (PList [Sample.amanita; Sample.amanita_other])
           "Amanita muscaria"
  = Ok {| row_query := "Amanita muscaria"; row_status := multiple_records;
          row_name := NA |}.
Proof. reflexivity. Qed.

(** ** Classifier: the canonical record *)

(** C10: a canonical record whose current-name identifier is falsy (absent,
    null, 0, the empty string, ...) is classified [no_current] with "NA",
    whatever its own identifier is, also when both are 0. *)
Theorem C10_falsy_current_id (auth : authority) (items : pyval)
  (records : list pyval) (species : string) (item id cid : pyval) :
  py_iter items = Ok records ->
  select_canonical species records = Ok (Canonical item) ->
  py_getitem item "id" = Ok id ->
  current_name_id item = Ok cid ->
  truthy cid = false ->
  classify auth items species
    = Ok {| row_query := species; row_status := no_current; row_name := NA |}
  /\ truthy (PInt 0) = false /\ truthy (PStr "") = false.
Proof.
  intros Hi Hs Hid Hcid Hf. split; [|split; reflexivity].
  rewrite (classify_canonical auth items records species item Hi Hs).
  unfold classify_item. rewrite Hid. cbn [bind]. rewrite Hcid. cbn [bind].
  rewrite Hf. reflexivity.
Qed.

Lemma C10_falsy_current_id_witness :
  py_iter (PList [Sample.zero_ids]) = Ok [Sample.zero_ids] /\
  select_canonical "Amanita muscaria" [Sample.zero_ids]
  = Ok (Canonical Sample.zero_ids) /\
  py_getitem Sample.zero_ids "id" = Ok (PInt 0) /\
  current_name_id Sample.zero_ids = Ok (PInt 0) /\
  truthy (PInt 0) = false /\
  classify Sample.auth_db (PList [Sample.zero_ids]) "Amanita muscaria"
    = Ok {| row_query := "Amanita muscaria"; row_status := no_current;
            row_name := NA |}
  /\ truthy (PInt 0) = false /\ truthy (PStr "") = false.
Proof.
  repeat (split; [reflexivity|]).
  apply (C10_falsy_current_id Sample.auth_db (PList [Sample.zero_ids])
           [Sample.zero_ids] "Amanita muscaria" Sample.zero_ids
           (PInt 0) (PInt 0)); reflexivity.
Defined.

(** C2 (as stated): the resolved name of a [current] name is the query
    string. The row carries the name of the record, which the match of
    lines 158 compares with the query letter case and surrounding white
    space apart. *)
Lemma C2_resolved_name_is_record_name :
  select_canonical "amanita muscaria" [Sample.amanita; Sample.boletus]
  = Ok (Canonical Sample.amanita) /\
  py_getitem Sample.amanita "id" = Ok (PInt 100) /\
  current_name_id Sample.amanita = Ok (PInt 100) /\
  classify Sample.auth_db (PList [Sample.amanita; Sample.boletus])
           "amanita muscaria"
  = Ok {| row_query := "amanita muscaria"; row_status := current;
          row_name := PStr "Amanita muscaria" |} /\
  PStr "Amanita muscaria" <> PStr "amanita muscaria".
Proof.
  repeat (split; [reflexivity|]). discriminate.
Qed.

(** C2 (amended): for a query name that is not blank, whose canonical record
    has a truthy current-name identifier equal to its own identifier, the
    status is [current] and the resolved name is the name of the canonical
    record, which is the query name up to letter case and surrounding white
    space. *)
Theorem C2_current_name (auth : authority) (items : pyval)
  (records : list pyval) (species : string) (item id cid : pyval) :
  PyStr.strip species <> "" ->
  py_iter items = Ok records ->
  select_canonical species records = Ok (Canonical item) ->
  py_getitem item "id" = Ok id ->
  current_name_id item = Ok cid ->
  truthy cid = true ->
  py_eq id cid = true ->
  exists name,
    py_getitem item "name" = Ok (PStr name) /\
    classify auth items species
      = Ok {| row_query := species; row_status := current;
              row_name := PStr name |} /\
    PyStr.lower (PyStr.strip name) = PyStr.lower (PyStr.strip species).
Proof.
  intros Hsp Hi Hs Hid Hcid Ht He.
  destruct (select_canonical_in _ _ _ Hs) as (_ & Hsame & _).
  unfold same_name in Hsame.
  destruct (record_name item) as [name|] eqn:Hname; [|discriminate Hsame].
  apply String.eqb_eq in Hsame.
  assert (Hget : py_getitem item "name" = Ok (PStr name)).
  { destruct item as [| | | |l|d]; try discriminate Hname.
    unfold record_name in Hname. unfold py_getitem.
    destruct (dict_get d "name") as [[| | |s| |]|]; try discriminate Hname;
      injection Hname as <-; [reflexivity|].
    exfalso. apply Hsp. apply lower_empty. symmetry. exact Hsame. }
  exists name. split; [exact Hget|]. split; [|exact Hsame].
  rewrite (classify_canonical auth items records species item Hi Hs).
  unfold classify_item. rewrite Hid. cbn [bind]. rewrite Hcid. cbn [bind].
  rewrite Ht, He, Hget. reflexivity.
Qed.

Lemma C2_current_name_witness :
  PyStr.strip "amanita muscaria" <> "" /\
  py_iter (PList [Sample.amanita; Sample.boletus])
  = Ok [Sample.amanita; Sample.boletus] /\
  select_canonical "amanita muscaria" [Sample.amanita; Sample.boletus]
  = Ok (Canonical Sample.amanita) /\
  py_getitem Sample.amanita "id" = Ok (PInt 100) /\
  current_name_id Sample.amanita = Ok (PInt 100) /\
  truthy (PInt 100) = true /\
  py_eq (PInt 100) (PInt 100) = true /\
  exists name,
    py_getitem Sample.amanita "name" = Ok (PStr name) /\
    classify Sample.auth_db (PList [Sample.amanita; Sample.boletus])
             "amanita muscaria"
      = Ok {| row_query := "amanita muscaria"; row_status := current;
              row_name := PStr name |} /\
    PyStr.lower (PyStr.strip name)
    = PyStr.lower (PyStr.strip "amanita muscaria").
Proof.
  assert (Hsp : PyStr.strip "amanita muscaria" <> "") by discriminate.
  split; [exact Hsp|]. repeat (split; [reflexivity|]).
  apply (C2_current_name Sample.auth_db
           (PList [Sample.amanita; Sample.boletus])
           [Sample.amanita; Sample.boletus] "amanita muscaria"
           Sample.amanita (PInt 100) (PInt 100) Hsp); reflexivity.
Defined.

(** ** Synonym resolver *)




(** The scenario of section 8: the point lookup returns the accepted name. *)
Example not_current_scenario :
  classify Sample.auth_db (PList [Sample.amanita; Sample.boletus])
           "Boletus edulis"
  = Ok {| row_query := "Boletus edulis"; row_status := not_current;
          row_name := PStr "Boletus edulis var. albus" |}.
Proof. reflexivity. Qed.

(** ** Batch-transport failure *)

Lemma mark_errors_eq (species_batch : list string) (st : run_state) :
  results (mark_errors st species_batch)
  = results st
    ++ map (fun sp => {| row_query := sp; row_status := error;
                         row_name := NA |}) species_batch /\
  n_error (counts (mark_errors st species_batch))
  = n_error (counts st) + length species_batch /\
  processed_count (mark_errors st species_batch)
  = processed_count st + length species_batch.
Proof.
  unfold mark_errors. revert st.
  induction species_batch as [|sp l IH]; intros st; cbn [fold_left map length].
  - rewrite app_nil_r. repeat split; lia.
  - destruct (IH (record_row st {| row_query := sp; row_status := error;
                                   row_name := NA |})) as (H1 & H2 & H3).
    rewrite H1, H2, H3. cbn. rewrite <- app_assoc. cbn.
    repeat split; try reflexivity; lia.
Qed.

(** C6: when the batch query is answered with a status code other than 200,
    every name of the batch gets the row [name, error, "NA"] in the order of
    the batch, no record is classified for it, and the loop goes on with the
    next batch, with one request made for the failed one. *)
Theorem C6_batch_failure (auth : authority) (st : run_state)
  (species_batch : list string) :
  status_code (batch_get auth (filter_str species_batch)) <> 200%Z ->
  process_batch auth st species_batch = Ok (mark_errors st species_batch) /\
  results (mark_errors st species_batch)
  = results st
    ++ map (fun sp => {| row_query := sp; row_status := error;
                         row_name := NA |}) species_batch /\
  n_error (counts (mark_errors st species_batch))
  = n_error (counts st) + length species_batch /\
  forall batches,
    foldM (process_batch auth) (species_batch :: batches) st
    = foldM (process_batch auth) batches (mark_errors st species_batch).
Proof.
  intros Hcode.
  assert (Hp : process_batch auth st species_batch
               = Ok (mark_errors st species_batch)).
  { unfold process_batch.
    destruct (Z.eqb_spec
                (status_code (batch_get auth (filter_str species_batch))) 200);
      [contradiction | reflexivity]. }
  destruct (mark_errors_eq species_batch st) as (H1 & H2 & _).
  repeat split; try assumption.
  intros batches. cbn [foldM]. rewrite Hp. reflexivity.
Qed.

Lemma C6_batch_failure_witness :
  status_code (batch_get Sample.auth_short_filters
                 (filter_str Sample.two_species)) <> 200%Z /\
  process_batch Sample.auth_short_filters run_init Sample.two_species
  = Ok (mark_errors run_init Sample.two_species) /\
  results (mark_errors run_init Sample.two_species)
  = results run_init
    ++ map (fun sp => {| row_query := sp; row_status := error;
                         row_name := NA |}) Sample.two_species /\
  n_error (counts (mark_errors run_init Sample.two_species))
  = n_error (counts run_init) + length Sample.two_species /\
  forall batches,
    foldM (process_batch Sample.auth_short_filters)
          (Sample.two_species :: batches) run_init
    = foldM (process_batch Sample.auth_short_filters) batches
            (mark_errors run_init Sample.two_species).
Proof.
  assert (H : status_code (batch_get Sample.auth_short_filters
                             (filter_str Sample.two_species)) <> 200%Z)
    by discriminate.
  split; [exact H|].
  exact (C6_batch_failure Sample.auth_short_filters run_init
           Sample.two_species H).
Defined.

Example authority_down :
  statuses (get_current_names_batch Sample.auth_down Sample.two_species 1)
  = Ok [error; error].
Proof. reflexivity. Qed.

(** The scenario of section 8, with the batch that fails followed by one
    that does not. *)
Example batch_failure_scenario :
  foldM (process_batch Sample.auth_short_filters)
        [Sample.two_species; ["Amanita muscaria"]] run_init
  = Ok {| results :=
            [{| row_query := "Amanita muscaria"; row_status := error;
                row_name := NA |};
             {| row_query := "Boletus edulis"; row_status := error;
                row_name := NA |};
             {| row_query := "Amanita muscaria"; row_status := current;
                row_name := PStr "Amanita muscaria" |}];
          counts := bump current (bump error (bump error summary_init));
          processed_count := 3 |}.
Proof. reflexivity. Qed.

(** ** Batch size *)

Lemma filter_andb {A : Type} (f g : A -> bool) (l : list A) :
  filter (fun x => f x && g x) l = filter g (filter f l).
Proof.
  induction l as [|x l IH]; simpl; [reflexivity|].
  destruct (f x); simpl; [destruct (g x)|]; now rewrite IH.
Qed.

Lemma existsb_filter {A : Type} (f g : A -> bool) (l : list A) :
  (forall x, g x = true -> f x = true) ->
  existsb g (filter f l) = existsb g l.
Proof.
  intros H. induction l as [|x l IH]; simpl; [reflexivity|].
  destruct (f x) eqn:Ef; simpl; rewrite IH; [reflexivity|].
  destruct (g x) eqn:Eg; [|reflexivity].
  rewrite (H x Eg) in Ef. discriminate.
Qed.

Lemma same_name_named (species : string) (item : pyval) :
  same_name species item = true -> named_record item = true.
Proof.
  unfold same_name, named_record. destruct (record_name item); auto.
Qed.



(** The selection looks only at the records that bear the name of the
    query. *)
Lemma select_canonical_ext (species : string) (l l' : list pyval) :
  forallb named_record l = true ->
  forallb named_record l' = true ->
  filter (same_name species) l = filter (same_name species) l' ->
  select_canonical species l = select_canonical species l'.
Proof.
  intros Hl Hl' Heq. unfold select_canonical.
  rewrite (filterM_name_matches species l Hl).
  rewrite (filterM_name_matches species l' Hl'). cbn [bind].
  rewrite (lowered_name_in_named species l Hl).
  rewrite (lowered_name_in_named species l' Hl').
  rewrite (filter_andb (same_name species)
             (fun i => negb (excluded_status i)) l).
  rewrite (filter_andb (same_name species)
             (fun i => negb (excluded_status i)) l').
  rewrite <- (existsb_filter (same_name species) (bears_name species) l
                (bears_name_same_name species)).
  rewrite <- (existsb_filter (same_name species) (bears_name species) l'
                (bears_name_same_name species)).
  rewrite Heq. reflexivity.
Qed.

Lemma classify_ext (auth : authority) (species : string) (l l' : list pyval) :
  forallb named_record l = true ->
  forallb named_record l' = true ->
  filter (same_name species) l = filter (same_name species) l' ->
  classify auth (PList l) species = classify auth (PList l') species.
Proof.
  intros Hl Hl' Heq. unfold classify. cbn [py_iter bind].
  rewrite (select_canonical_ext species l l' Hl Hl' Heq). reflexivity.
Qed.

Lemma foldM_ext_in {A S : Type} (f g : S -> A -> res S) (l : list A) :
  (forall a, In a l -> forall st, f st a = g st a) ->
  forall st, foldM f l st = foldM g l st.
Proof.
  induction l as [|a l IH]; intros H st; cbn [foldM]; [reflexivity|].
  rewrite (H a (or_introl eq_refl)).
  destruct (g st a) as [st'|e]; cbn [bind]; [|reflexivity].
  apply IH. intros b Hb. apply H. right. exact Hb.
Qed.








(* ===================================================================== *)
(** * Further properties *)
(* ===================================================================== *)

(** ** The report and the summary of a run *)

Lemma extends_refl (st : run_state) : extends st st [].
Proof.
  unfold extends. cbn. rewrite app_nil_r. repeat split; lia.
Qed.

Lemma extends_record (st : run_state) (r : row) :
  extends st (record_row st r) [r].
Proof.
  unfold extends. cbn. repeat split; lia.
Qed.

Lemma extends_trans (st1 st2 st3 : run_state) (new1 new2 : list row) :
  extends st1 st2 new1 -> extends st2 st3 new2 ->
  extends st1 st3 (new1 ++ new2).
Proof.
  intros (R1 & C1 & P1) (R2 & C2 & P2). unfold extends.
  rewrite R2, R1, C2, C1, P2, P1, fold_left_app, length_app, app_assoc.
  repeat split; lia.
Qed.

Lemma classify_query (auth : authority) (items : pyval) (species : string)
  (r : row) :
  classify auth items species = Ok r -> row_query r = species.
Proof.
  unfold classify.
  destruct (py_iter items) as [records|e]; cbn [bind]; [|discriminate].
  destruct (select_canonical species records) as [[st|item]|e]; cbn [bind];
    [| |discriminate].
  - intros [= <-]. reflexivity.
  - intros H. apply (classify_item_status _ _ _ _ H).
Qed.

Lemma classify_steps_new (auth : authority) (items : pyval)
  (l : list string) (st st' : run_state) :
  foldM (classify_step auth items) l st = Ok st' ->
  exists new, extends st st' new /\ map row_query new = l.
Proof.
  revert st. induction l as [|sp l IH]; intros st; cbn [foldM].
  - intros [= <-]. exists []. split; [apply extends_refl | reflexivity].
  - unfold classify_step at 1.
    destruct (classify auth items sp) as [r|e] eqn:Hc; cbn [bind];
      [|discriminate].
    intros H. destruct (IH _ H) as (new & Hext & Hq).
    exists (r :: new). split.
    + exact (extends_trans _ _ _ [r] new (extends_record st r) Hext).
    + cbn [map]. now rewrite Hq, (classify_query _ _ _ _ Hc).
Qed.

Lemma mark_errors_new (l : list string) (st : run_state) :
  exists new, extends st (mark_errors st l) new /\ map row_query new = l.
Proof.
  unfold mark_errors. revert st.
  induction l as [|sp l IH]; intros st; cbn [fold_left].
  - exists []. split; [apply extends_refl | reflexivity].
  - destruct (IH (record_row st {| row_query := sp; row_status := error;
                                   row_name := NA |})) as (new & Hext & Hq).
    eexists (_ :: new). split.
    + exact (extends_trans _ _ _ [_] new (extends_record st _) Hext).
    + cbn [map row_query]. now rewrite Hq.
Qed.

Lemma process_batch_new (auth : authority) (b : list string)
  (st st' : run_state) :
  process_batch auth st b = Ok st' ->
  exists new, extends st st' new /\ map row_query new = b.
Proof.
  unfold process_batch.
  destruct (negb (status_code (batch_get auth (filter_str b)) =? 200)%Z).
  - intros [= <-]. apply mark_errors_new.
  - destruct (json (batch_get auth (filter_str b))) as [data|e]; cbn [bind];
      [|discriminate].
    destruct (py_get data "items" (PList [])) as [items|e]; cbn [bind];
      [|discriminate].
    apply classify_steps_new.
Qed.

Lemma run_batches_new (auth : authority) (bs : list (list string))
  (st st' : run_state) :
  foldM (process_batch auth) bs st = Ok st' ->
  exists new, extends st st' new /\ map row_query new = concat bs.
Proof.
  revert st. induction bs as [|b bs IH]; intros st; cbn [foldM].
  - intros [= <-]. exists []. split; [apply extends_refl | reflexivity].
  - destruct (process_batch auth st b) as [st1|e] eqn:Hb; cbn [bind];
      [|discriminate].
    intros H. destruct (process_batch_new _ _ _ _ Hb) as (new1 & E1 & Q1).
    destruct (IH _ H) as (new2 & E2 & Q2).
    exists (new1 ++ new2). split.
    + exact (extends_trans _ _ _ _ _ E1 E2).
    + cbn [concat]. now rewrite map_app, Q1, Q2.
Qed.

Lemma run_new (auth : authority) (l : list string) (n : Z)
  (rows : list row) (s : summary) :
  get_current_names_batch auth l n = Ok (rows, s) ->
  exists bs, batch l n = Ok bs /\ map row_query rows = concat bs /\
             s = tally rows.
Proof.
  unfold get_current_names_batch.
  destruct (batch l n) as [bs|e]; cbn [bind]; [|discriminate].
  destruct (foldM (process_batch auth) bs run_init) as [st|e] eqn:Hrun;
    cbn [bind]; [|discriminate].
  intros [= <- <-]. exists bs.
  destruct (run_batches_new _ _ _ _ Hrun) as (new & (R & C & _) & Q).
  cbn in R, C. subst new. split; [reflexivity|]. split; [exact Q|exact C].
Qed.

Lemma summary_total_bump (st : status) (s : summary) :
  summary_total (bump st s) = S (summary_total s).
Proof. destruct st; unfold summary_total; cbn; lia. Qed.

Lemma summary_total_tally (rows : list row) (s : summary) :
  summary_total (fold_left (fun s r => bump (row_status r) s) rows s)
  = summary_total s + length rows.
Proof.
  revert s. induction rows as [|r rows IH]; intros s; cbn [fold_left length].
  - lia.
  - rewrite IH, summary_total_bump. lia.
Qed.

(** X1: a run with a batch size of 1 or more that ends without an exception
    reports one row for each query name, in the order of the query list. *)
Theorem X1_one_row_per_query (auth : authority) (species_list : list string)
  (batch_size : Z) (rows : list row) (s : summary) :
  (0 < batch_size)%Z ->
  get_current_names_batch auth species_list batch_size = Ok (rows, s) ->
  map row_query rows = species_list.
Proof.
  intros Hn Hrun. destruct (run_new _ _ _ _ _ Hrun) as (bs & Hb & Hq & _).
  rewrite Hq. unfold batch in Hb.
  destruct ((batch_size <? 0)%Z || (sys_maxsize <? batch_size)%Z);
    [discriminate|].
  injection Hb as <-. apply batch_loop_concat. lia.
Qed.

Lemma X1_one_row_per_query_witness :
  (0 < 1)%Z /\
  get_current_names_batch Sample.auth_db Sample.two_species 1
  = Ok ([{| row_query := "Amanita muscaria"; row_status := current;
            row_name := PStr "Amanita muscaria" |};
         {| row_query := "Boletus edulis"; row_status := not_current;
            row_name := PStr "Boletus edulis var. albus" |}],
        bump not_current (bump current summary_init)) /\
  map row_query
      [{| row_query := "Amanita muscaria"; row_status := current;
          row_name := PStr "Amanita muscaria" |};
       {| row_query := "Boletus edulis"; row_status := not_current;
          row_name := PStr "Boletus edulis var. albus" |}]
  = Sample.two_species.
Proof.
  assert (H1 : (0 < 1)%Z) by lia.
  assert (Hrun : get_current_names_batch Sample.auth_db Sample.two_species 1
    = Ok ([{| row_query := "Amanita muscaria"; row_status := current;
              row_name := PStr "Amanita muscaria" |};
           {| row_query := "Boletus edulis"; row_status := not_current;
              row_name := PStr "Boletus edulis var. albus" |}],
          bump not_current (bump current summary_init))) by reflexivity.
  split; [exact H1|]. split; [exact Hrun|].
  exact (X1_one_row_per_query Sample.auth_db Sample.two_species 1 _ _ H1 Hrun).
Defined.



(** ** Shape of the batches *)

Lemma batch_loop_step {A : Type} (n : nat) (l : list A) :
  batch_loop n l
  = match firstn n l with
    | [] => []
    | x :: chunk => (x :: chunk) :: batch_loop n (skipn n l)
    end.
Proof.
  funelim (batch_loop n l).
  - match goal with E : firstn _ _ = [] |- _ => rewrite E end. reflexivity.
  - match goal with E : firstn _ _ = _ :: _ |- _ => rewrite E end.
    reflexivity.
Qed.

Lemma batch_loop_nth {A : Type} (n : nat) (i : nat) (l : list A) :
  0 < n ->
  nth i (batch_loop n l) [] = firstn n (skipn (i * n) l).
Proof.
  intros Hn. revert l. induction i as [|i IH]; intros l;
    rewrite batch_loop_step.
  - cbn [Nat.mul skipn]. destruct (firstn n l); reflexivity.
  - destruct (firstn n l) as [|x chunk] eqn:E.
    + assert (l = []) as ->.
      { destruct n; [lia|]. destruct l; [reflexivity | discriminate E]. }
      rewrite skipn_nil, firstn_nil. reflexivity.
    + cbn [nth]. rewrite IH, skipn_skipn.
      replace (S i * n) with (i * n + n) by lia. reflexivity.
Qed.

Lemma batch_loop_count {A : Type} (n : nat) (l : list A) :
  0 < n ->
  length l <= length (batch_loop n l) * n < length l + n.
Proof.
  intros Hn. funelim (batch_loop n l).
  - assert (it = []) as ->.
    { destruct n; [lia|]. destruct it; [reflexivity | discriminate]. }
    cbn. lia.
  - cbn [length].
    match goal with
    | IH : 0 < _ -> _ |- _ => specialize (IH Hn); rewrite length_skipn in IH
    end.
    assert (0 < length it).
    { destruct it; [|cbn; lia]. destruct n; discriminate. }
    rewrite Nat.mul_succ_l.
    destruct (Nat.le_gt_cases n (length it)) as [Hge|Hlt]; [lia|].
    assert (length (batch_loop n (skipn n it)) = 0) as -> by nia.
    lia.
Qed.

Lemma batch_loop_zero {A : Type} (l : list A) : batch_loop 0 l = [].
Proof. rewrite batch_loop_step. reflexivity. Qed.

(** X3: with a batch size of 0 no name is classified and the report is
    empty, whatever the query list; with a negative batch size the run ends
    with [ValueError]. *)
Theorem X3_no_positive_batch_size (auth : authority)
  (species_list : list string) (batch_size : Z) :
  (batch_size <= 0)%Z ->
  get_current_names_batch auth species_list batch_size
  = if (batch_size =? 0)%Z then Ok ([], summary_init) else Raise ValueError.
Proof.
  intros Hn. unfold get_current_names_batch, batch.
  destruct (Z.eqb_spec batch_size 0) as [->|Hne].
  - cbn [Z.ltb Z.compare orb Z.to_nat]. rewrite batch_loop_zero. reflexivity.
  - destruct (Z.ltb_spec batch_size 0); [reflexivity | lia].
Qed.

Lemma X3_no_positive_batch_size_witness :
  (-1 <= 0)%Z /\
  get_current_names_batch Sample.auth_db Sample.two_species (-1)
  = if (-1 =? 0)%Z then Ok ([], summary_init) else Raise ValueError.
Proof.
  assert (H : (-1 <= 0)%Z) by lia.
  split; [exact H|].
  exact (X3_no_positive_batch_size Sample.auth_db Sample.two_species (-1) H).
Defined.

(** X4: for a batch size [n] from 1 to [sys.maxsize], batch number [i]
    (from 0) holds the elements [i*n] to [i*n + n - 1] of the query list, and
    the number of batches is the length of the list divided by [n], rounded
    up. *)
Theorem X4_batches_are_slices {A : Type} (l : list A) (n : Z) :
  (0 < n <= sys_maxsize)%Z ->
  exists bs,
    batch l n = Ok bs /\
    (forall i, nth i bs [] = firstn (Z.to_nat n) (skipn (i * Z.to_nat n) l)) /\
    length l <= length bs * Z.to_nat n < length l + Z.to_nat n.
Proof.
  intros Hn. exists (batch_loop (Z.to_nat n) l).
  assert (Hpos : 0 < Z.to_nat n) by lia.
  split; [apply batch_ok, Hn|]. split.
  - intros i. apply batch_loop_nth, Hpos.
  - apply batch_loop_count, Hpos.
Qed.

Lemma X4_batches_are_slices_witness :
  (0 < 2 <= sys_maxsize)%Z /\
  exists bs,
    batch ["Amanita muscaria"; "Boletus edulis"; "Russula emetica"] 2
    = Ok bs /\
    (forall i,
       nth i bs []
       = firstn (Z.to_nat 2)
           (skipn (i * Z.to_nat 2)
              ["Amanita muscaria"; "Boletus edulis"; "Russula emetica"])) /\
    length ["Amanita muscaria"; "Boletus edulis"; "Russula emetica"]
    <= length bs * Z.to_nat 2
    < length ["Amanita muscaria"; "Boletus edulis"; "Russula emetica"]
      + Z.to_nat 2.
Proof.
  assert (H : (0 < 2 <= sys_maxsize)%Z) by (unfold sys_maxsize; lia).
  split; [exact H|].
  exact (X4_batches_are_slices
           ["Amanita muscaria"; "Boletus edulis"; "Russula emetica"] 2 H).
Defined.

(** ** Names that the loader queries and names that it excludes *)

Lemma rstrip_idem (s : string) : PyStr.rstrip (PyStr.rstrip s) = PyStr.rstrip s.
Proof.
  induction s as [|c s IH]; [reflexivity|]. cbn [PyStr.rstrip].
  destruct (PyStr.rstrip s) as [|c' r] eqn:E.
  - destruct (PyStr.isspace c) eqn:Ec; [reflexivity|].
    cbn [PyStr.rstrip]. rewrite Ec. reflexivity.
  - change (PyStr.rstrip (String c (String c' r)))
      with (match PyStr.rstrip (String c' r) with
            | EmptyString =>
                if PyStr.isspace c then EmptyString else String c EmptyString
            | r' => String c r'
            end).
    rewrite IH. reflexivity.
Qed.

(** A string that does not start with white space. *)
Lemma lstrip_fixed (s : string) :
  match s with
  | EmptyString => True
  | String c _ => PyStr.isspace c = false
  end ->
  PyStr.lstrip s = s.
Proof.
  destruct s as [|c s]; [reflexivity|]. cbn [PyStr.lstrip].
  intros ->. reflexivity.
Qed.

Lemma lstrip_head (s : string) :
  match PyStr.lstrip s with
  | EmptyString => True
  | String c _ => PyStr.isspace c = false
  end.
Proof.
  induction s as [|c s IH]; cbn [PyStr.lstrip]; [exact I|].
  destruct (PyStr.isspace c) eqn:E; [exact IH | exact E].
Qed.

Lemma rstrip_head (s : string) :
  match s with
  | EmptyString => True
  | String c _ => PyStr.isspace c = false
  end ->
  match PyStr.rstrip s with
  | EmptyString => True
  | String c _ => PyStr.isspace c = false
  end.
Proof.
  destruct s as [|c s]; [intros _; exact I|]. intros Hc.
  cbn [PyStr.rstrip]. destruct (PyStr.rstrip s).
  - rewrite Hc. exact Hc.
  - exact Hc.
Qed.

(** Stripping a stripped string changes nothing. *)
Lemma strip_idem (s : string) : PyStr.strip (PyStr.strip s) = PyStr.strip s.
Proof.
  unfold PyStr.strip.
  rewrite (lstrip_fixed (PyStr.rstrip (PyStr.lstrip s))).
  - apply rstrip_idem.
  - apply rstrip_head, lstrip_head.
Qed.

Lemma mem_In (x : string) (l : list string) :
  PyStr.mem x l = true <-> In x l.
Proof.
  unfold PyStr.mem. rewrite existsb_exists. split.
  - intros (y & Hy & E). apply String.eqb_eq in E. now subst.
  - intros H. exists x. split; [exact H | apply String.eqb_refl].
Qed.

Lemma prefix_append (s t : string) : prefix s (String.append s t) = true.
Proof.
  induction s as [|c s IH]; [destruct t; reflexivity|]. cbn.
  destruct (ascii_dec c c); [exact IH | contradiction].
Qed.

Lemma prefix_split (s h : string) :
  prefix s h = true -> exists t, h = String.append s t.
Proof.
  revert h. induction s as [|c s IH]; intros h H.
  - exists h. reflexivity.
  - destruct h as [|c' h]; [discriminate H|]. cbn in H.
    destruct (ascii_dec c c') as [<-|]; [|discriminate H].
    destruct (IH h H) as (t & ->). exists t. reflexivity.
Qed.

Lemma contains_step (needle hay : string) :
  PyStr.contains needle hay
  = prefix needle hay ||
    match hay with
    | EmptyString => false
    | String _ hay' => PyStr.contains needle hay'
    end.
Proof. destruct hay; reflexivity. Qed.

(** [needle in hay] is true exactly when [needle] occurs in [hay]. *)
Lemma contains_substring (needle hay : string) :
  PyStr.contains needle hay = true <-> substring needle hay.
Proof.
  split.
  - induction hay as [|c hay IH]; rewrite contains_step; intros H;
      apply orb_true_iff in H as [H|H].
    + destruct (prefix_split _ _ H) as (t & E). exists EmptyString, t. exact E.
    + discriminate H.
    + destruct (prefix_split _ _ H) as (t & E). exists EmptyString, t. exact E.
    + destruct (IH H) as (pre & post & ->). exists (String c pre), post.
      reflexivity.
  - intros (pre & post & ->). induction pre as [|c pre IH];
      rewrite contains_step.
    + cbn [String.append]. rewrite prefix_append. reflexivity.
    + cbn [String.append]. rewrite IH. apply orb_true_r.
Qed.

Lemma has_marker_substring (sp : string) :
  has_marker sp = true <->
  exists marker, In marker excluded_characters /\ substring marker sp.
Proof.
  unfold has_marker. rewrite existsb_exists.
  split; intros (m & Hm & H); exists m; (split; [exact Hm|]);
    apply contains_substring; exact H.
Qed.

Lemma stripped_lines_In (lines : list string) (sp : string) :
  In sp (stripped_lines lines) <->
  exists line, In line lines /\ PyStr.strip line = sp /\ sp <> "".
Proof.
  unfold stripped_lines, non_blank. rewrite in_map_iff. split.
  - intros (line & <- & H). apply filter_In in H as [H Hnb].
    exists line. repeat split; auto.
    intros E. rewrite E in Hnb. discriminate Hnb.
  - intros (line & H & <- & Hnb). exists line. split; [reflexivity|].
    apply filter_In. split; [exact H|].
    destruct (String.eqb_spec (PyStr.strip line) ""); [contradiction|].
    reflexivity.
Qed.

Lemma exclusion_rows_In (excl l : list string) (sp : string) (r : reason) :
  In (sp, r) (flat_map (exclusion_row excl) l) <->
  In sp l /\ disposition excl sp = Some r.
Proof.
  rewrite in_flat_map. unfold exclusion_row. split.
  - intros (x & Hx & H). destruct (disposition excl x) as [r'|] eqn:E;
      [|contradiction].
    destruct H as [[= <- <-]|[]]. auto.
  - intros [H E]. exists sp. split; [exact H|]. rewrite E. left. reflexivity.
Qed.

Lemma query_name_facts (lines excl : list string) (sp : string) :
  In sp (species_to_check (read_species_list lines excl)) ->
  (exists line, In line lines /\ PyStr.strip line = sp) /\
  PyStr.strip sp = sp /\ sp <> "" /\ ~ In sp excl /\
  forall marker, In marker excluded_characters -> ~ substring marker sp.
Proof.
  destruct (read_species_list_eq excl lines) as (H & _). rewrite H.
  intros Hin. apply filter_In in Hin as [Hin Hacc].
  apply stripped_lines_In in Hin as (line & Hline & Hs & Hnb).
  rewrite accepted_eq in Hacc. apply andb_true_iff in Hacc as [Hu Hm].
  apply negb_true_iff in Hu, Hm.
  split; [exists line; auto|]. split; [rewrite <- Hs; apply strip_idem|].
  split; [exact Hnb|]. split.
  - intros Hex. apply mem_In in Hex. unfold on_exclusion_list in Hu.
    congruence.
  - intros marker Hmk Hsub.
    assert (has_marker sp = true) by (apply has_marker_substring; eauto).
    congruence.
Qed.

(** X5: every name of the query list is a line of the file without its
    surrounding white space, is not blank, is not on the exclusion list, and
    none of the markers [ ] sp. cf. aff. occurs in it. *)
Theorem X5_query_names (lines excl : list string) (sp : string) :
  In sp (species_to_check (read_species_list lines excl)) ->
  (exists line, In line lines /\ PyStr.strip line = sp) /\
  PyStr.strip sp = sp /\ sp <> "" /\ ~ In sp excl /\
  forall marker, In marker excluded_characters -> ~ substring marker sp.
Proof.
  intros Hin. destruct (query_name_facts lines excl sp Hin)
    as (Hline & Hstrip & Hnb & Hex & Hmark).
  repeat split; assumption.
Qed.

Lemma X5_query_names_witness :
  In "Amanita muscaria"
     (species_to_check (read_species_list Sample.mixed_lines
                          Sample.exclusions)) /\
  (exists line, In line Sample.mixed_lines /\
                PyStr.strip line = "Amanita muscaria") /\
  PyStr.strip "Amanita muscaria" = "Amanita muscaria" /\
  "Amanita muscaria" <> "" /\
  ~ In "Amanita muscaria" Sample.exclusions /\
  forall marker, In marker excluded_characters ->
                 ~ substring marker "Amanita muscaria".
Proof.
  assert (H : In "Amanita muscaria"
                (species_to_check (read_species_list Sample.mixed_lines
                                     Sample.exclusions)))
    by (left; reflexivity).
  split; [exact H|].
  exact (X5_query_names Sample.mixed_lines Sample.exclusions
           "Amanita muscaria" H).
Defined.

(** X6: every non-blank line of the file, stripped, is in the query list or
    in the excluded rows, and no name is in both. *)
Theorem X6_queried_or_excluded (lines excl : list string) (sp : string) :
  let st := read_species_list lines excl in
  (In sp (stripped_lines lines) <->
   In sp (species_to_check st) \/ In sp (map fst (excluded_rows st))) /\
  ~ (In sp (species_to_check st) /\ In sp (map fst (excluded_rows st))).
Proof.
  cbv zeta. destruct (read_species_list_eq excl lines) as (H1 & H2 & _).
  cbv zeta in H2. rewrite H1, H2. clear H1 H2.
  assert (Hrow : In sp (map fst (flat_map (exclusion_row excl)
                                   (stripped_lines lines))) <->
                 In sp (stripped_lines lines) /\ accepted excl sp = false).
  { rewrite in_map_iff. unfold accepted. split.
    - intros ([sp' r] & <- & H). apply exclusion_rows_In in H as [H E].
      cbn [fst]. rewrite E. auto.
    - intros [H E]. destruct (disposition excl sp) as [r|] eqn:D;
        [|discriminate E].
      exists (sp, r). split; [reflexivity|]. apply exclusion_rows_In. auto. }
  rewrite Hrow, filter_In. split.
  - split.
    + intros H. destruct (accepted excl sp); auto.
    + intros [[H _]|[H _]]; exact H.
  - intros [[_ Ha] [_ Hb]]. congruence.
Qed.

(** X7: a non-blank line whose stripped text is on the exclusion list is
    reported as excluded by the user, also when it carries a marker; one that
    is not on the list is reported as ambiguous when one of the markers occurs
    anywhere in it, and is queried when none does. *)
Theorem X7_disposition_of_a_line (lines excl : list string) (line : string) :
  In line lines ->
  PyStr.strip line <> "" ->
  let sp := PyStr.strip line in
  let st := read_species_list lines excl in
  (In sp excl -> In (sp, user_excluded) (excluded_rows st)) /\
  (~ In sp excl ->
   (exists marker, In marker excluded_characters /\ substring marker sp) ->
   In (sp, ambiguous) (excluded_rows st)) /\
  (~ In sp excl ->
   (forall marker, In marker excluded_characters -> ~ substring marker sp) ->
   In sp (species_to_check st)).
Proof.
  intros Hline Hnb. cbv zeta.
  destruct (read_species_list_eq excl lines) as (H1 & H2 & _).
  cbv zeta in H2. rewrite H1, H2. clear H1 H2.
  assert (Hin : In (PyStr.strip line) (stripped_lines lines)).
  { apply stripped_lines_In. exists line. auto. }
  assert (Hmem : forall b, PyStr.mem (PyStr.strip line) excl = b ->
            (b = true <-> In (PyStr.strip line) excl)).
  { intros b <-. apply mem_In. }
  split; [|split].
  - intros Hex. apply exclusion_rows_In. split; [exact Hin|].
    unfold disposition. apply mem_In in Hex. rewrite Hex. reflexivity.
  - intros Hex Hm. apply exclusion_rows_In. split; [exact Hin|].
    unfold disposition.
    destruct (PyStr.mem (PyStr.strip line) excl) eqn:E.
    + exfalso. apply Hex, mem_In, E.
    + apply has_marker_substring in Hm. unfold has_marker in Hm.
      rewrite Hm. reflexivity.
  - intros Hex Hm. apply filter_In. split; [exact Hin|].
    rewrite accepted_eq. unfold on_exclusion_list.
    destruct (PyStr.mem (PyStr.strip line) excl) eqn:E.
    + exfalso. apply Hex, mem_In, E.
    + destruct (has_marker (PyStr.strip line)) eqn:Em; [|reflexivity].
      exfalso. apply has_marker_substring in Em as (m & Hmk & Hsub).
      exact (Hm m Hmk Hsub).
Qed.

Lemma X7_disposition_of_a_line_witness :
  In (Sample.line "Amanita sp.") Sample.mixed_lines /\
  PyStr.strip (Sample.line "Amanita sp.") <> "" /\
  let sp := PyStr.strip (Sample.line "Amanita sp.") in
  let st := read_species_list Sample.mixed_lines Sample.exclusions in
  (In sp Sample.exclusions -> In (sp, user_excluded) (excluded_rows st)) /\
  (~ In sp Sample.exclusions ->
   (exists marker, In marker excluded_characters /\ substring marker sp) ->
   In (sp, ambiguous) (excluded_rows st)) /\
  (~ In sp Sample.exclusions ->
   (forall marker, In marker excluded_characters -> ~ substring marker sp) ->
   In sp (species_to_check st)).
Proof.
  assert (H1 : In (Sample.line "Amanita sp.") Sample.mixed_lines)
    by (right; left; reflexivity).
  assert (H2 : PyStr.strip (Sample.line "Amanita sp.") <> "") by discriminate.
  split; [exact H1|]. split; [exact H2|].
  exact (X7_disposition_of_a_line Sample.mixed_lines Sample.exclusions
           (Sample.line "Amanita sp.") H1 H2).
Defined.

(** ** Answers that end the run *)

Lemma filterM_unnamed (species : string) (records : list pyval)
  (item : pyval) :
  In item records -> named_record item = false ->
  filterM (name_matches species) records = Raise AttributeError.
Proof.
  intros Hin Hn. induction records as [|x records IH]; [contradiction|].
  cbn [filterM].
  destruct (name_matches_cases species x) as [[Hx E]|[Hx E]]; rewrite E;
    cbn [bind]; [|reflexivity].
  destruct Hin as [->|Hin]; [congruence|].
  rewrite (IH Hin). reflexivity.
Qed.

Lemma foldM_raises_in {A S : Type} (f : S -> A -> res S) (l : list A) (a : A) :
  In a l ->
  (forall st, exists e, f st a = Raise e) ->
  forall st, exists e, foldM f l st = Raise e.
Proof.
  intros Hin Hf. induction l as [|x l IH]; [contradiction|]. intros st.
  cbn [foldM]. destruct (f st x) as [st'|e] eqn:E; cbn [bind].
  - destruct Hin as [->|Hin].
    + destruct (Hf st) as (e & He). congruence.
    + apply IH, Hin.
  - exists e. reflexivity.
Qed.

Lemma run_raises (auth : authority) (l : list string) (n : Z)
  (b : list string) :
  (0 < n <= sys_maxsize)%Z ->
  In b (batch_loop (Z.to_nat n) l) ->
  (forall st, exists e, process_batch auth st b = Raise e) ->
  exists e, get_current_names_batch auth l n = Raise e.
Proof.
  intros Hn Hb Hraise. unfold get_current_names_batch.
  rewrite (batch_ok l n Hn). cbn [bind].
  destruct (foldM_raises_in (process_batch auth) _ b Hb Hraise run_init)
    as (e & He).
  exists e. rewrite He. reflexivity.
Qed.

Lemma batch_nonempty {A : Type} (n : nat) (l b : list A) :
  In b (batch_loop n l) -> b <> [].
Proof.
  intros Hb. pose proof (batch_loop_sizes n l) as Hs.
  rewrite Forall_forall in Hs. specialize (Hs b Hb).
  intros ->. cbn in Hs. lia.
Qed.

(** X8: when the answer to the query of one batch holds a record whose name
    is not a string (or that is not an object), the comparison of line 158
    raises [AttributeError] for the first name of the batch, whatever the
    name is, and the run ends with an exception: no report is written, also
    not for the batches answered before. *)
Theorem X8_nameless_record_ends_run (auth : authority)
  (species_list : list string) (batch_size : Z) (species_batch : list string)
  (d : list (string * pyval)) (records : list pyval) (item : pyval) :
  (0 < batch_size <= sys_maxsize)%Z ->
  In species_batch (batch_loop (Z.to_nat batch_size) species_list) ->
  batch_get auth (filter_str species_batch)
  = {| status_code := 200; body := Some (PDict d) |} ->
  dict_get d "items" = Some (PList records) ->
  In item records ->
  named_record item = false ->
  (forall st, process_batch auth st species_batch = Raise AttributeError) /\
  exists e, get_current_names_batch auth species_list batch_size = Raise e.
Proof.
  intros Hn Hb Hresp Hitems Hin Hnamed.
  assert (Hp : forall st,
            process_batch auth st species_batch = Raise AttributeError).
  { intros st. unfold process_batch, json. rewrite Hresp.
    cbn [status_code body Z.eqb Pos.eqb negb bind py_get]. rewrite Hitems.
    destruct species_batch as [|sp rest];
      [exfalso; exact (batch_nonempty _ _ _ Hb eq_refl)|].
    cbn [foldM]. unfold classify_step at 1, classify, select_canonical.
    cbn [py_iter bind].
    rewrite (filterM_unnamed sp records item Hin Hnamed). reflexivity. }
  split; [exact Hp|].
  apply (run_raises auth species_list batch_size species_batch Hn Hb).
  intros st. exists AttributeError. apply Hp.
Qed.

Lemma X8_nameless_record_ends_run_witness :
  (0 < 1 <= sys_maxsize)%Z /\
  In ["Boletus edulis"] (batch_loop (Z.to_nat 1) Sample.two_species) /\
  batch_get MoreSamples.auth_nameless (filter_str ["Boletus edulis"])
  = {| status_code := 200;
       body := Some (PDict [("items",
                 PList [Sample.amanita; MoreSamples.nameless;
                        Sample.boletus])]) |} /\
  dict_get [("items", PList [Sample.amanita; MoreSamples.nameless;
                             Sample.boletus])] "items"
  = Some (PList [Sample.amanita; MoreSamples.nameless; Sample.boletus]) /\
  In MoreSamples.nameless
     [Sample.amanita; MoreSamples.nameless; Sample.boletus] /\
  named_record MoreSamples.nameless = false /\
  (forall st, process_batch MoreSamples.auth_nameless st ["Boletus edulis"]
              = Raise AttributeError) /\
  exists e,
    get_current_names_batch MoreSamples.auth_nameless Sample.two_species 1
    = Raise e.
Proof.
  assert (H1 : (0 < 1 <= sys_maxsize)%Z) by (unfold sys_maxsize; lia).
  assert (H2 : In ["Boletus edulis"]
                  (batch_loop (Z.to_nat 1) Sample.two_species))
    by (right; left; reflexivity).
  assert (H5 : In MoreSamples.nameless
                  [Sample.amanita; MoreSamples.nameless; Sample.boletus])
    by (right; left; reflexivity).
  split; [exact H1|]. split; [exact H2|]. split; [reflexivity|].
  split; [reflexivity|]. split; [exact H5|]. split; [reflexivity|].
  exact (X8_nameless_record_ends_run MoreSamples.auth_nameless
           Sample.two_species 1 ["Boletus edulis"] _ _ _
           H1 H2 eq_refl eq_refl H5 eq_refl).
Defined.

(** X9: when the query of one batch is answered with status 200 and a body
    that is not JSON, or is JSON but not an object, the run ends with an
    exception ([JSONDecodeError] or [AttributeError] for this batch) and no
    report is written. *)
Theorem X9_unreadable_answer_ends_run (auth : authority)
  (species_list : list string) (batch_size : Z)
  (species_batch : list string) :
  (0 < batch_size <= sys_maxsize)%Z ->
  In species_batch (batch_loop (Z.to_nat batch_size) species_list) ->
  status_code (batch_get auth (filter_str species_batch)) = 200%Z ->
  unreadable (batch_get auth (filter_str species_batch)) ->
  (forall st,
     process_batch auth st species_batch
     = Raise (match body (batch_get auth (filter_str species_batch)) with
              | None => JSONDecodeError
              | Some _ => AttributeError
              end)) /\
  exists e, get_current_names_batch auth species_list batch_size = Raise e.
Proof.
  intros Hn Hb Hcode Hbad.
  assert (Hp : forall st,
     process_batch auth st species_batch
     = Raise (match body (batch_get auth (filter_str species_batch)) with
              | None => JSONDecodeError
              | Some _ => AttributeError
              end)).
  { intros st. unfold process_batch, json. rewrite Hcode.
    cbn [Z.eqb Pos.eqb negb].
    destruct Hbad as [E|(v & E & Hv)]; rewrite E; cbn [bind];
      [reflexivity|].
    destruct v; try reflexivity. exfalso. exact (Hv d eq_refl). }
  split; [exact Hp|].
  apply (run_raises auth species_list batch_size species_batch Hn Hb).
  intros st. eexists. apply Hp.
Qed.

Lemma X9_unreadable_answer_ends_run_witness :
  (0 < 20 <= sys_maxsize)%Z /\
  In Sample.two_species (batch_loop (Z.to_nat 20) Sample.two_species) /\
  status_code (batch_get MoreSamples.auth_html (filter_str Sample.two_species))
  = 200%Z /\
  unreadable (batch_get MoreSamples.auth_html (filter_str Sample.two_species))
  /\
  (forall st,
     process_batch MoreSamples.auth_html st Sample.two_species
     = Raise (match body (batch_get MoreSamples.auth_html
                            (filter_str Sample.two_species)) with
              | None => JSONDecodeError
              | Some _ => AttributeError
              end)) /\
  exists e,
    get_current_names_batch MoreSamples.auth_html Sample.two_species 20
    = Raise e.
Proof.
  assert (H1 : (0 < 20 <= sys_maxsize)%Z) by (unfold sys_maxsize; lia).
  assert (H2 : In Sample.two_species
                  (batch_loop (Z.to_nat 20) Sample.two_species))
    by (left; reflexivity).
  assert (H4 : unreadable (batch_get MoreSamples.auth_html
                             (filter_str Sample.two_species)))
    by (left; reflexivity).
  split; [exact H1|]. split; [exact H2|]. split; [reflexivity|].
  split; [exact H4|].
  exact (X9_unreadable_answer_ends_run MoreSamples.auth_html
           Sample.two_species 20 Sample.two_species H1 H2 eq_refl H4).
Defined.

(** ** Answers on which the run returns *)




Lemma forallb_In {A : Type} (f : A -> bool) (l : list A) (x : A) :
  forallb f l = true -> In x l -> f x = true.
Proof. intros H Hx. rewrite forallb_forall in H. exact (H x Hx). Qed.








(** ** What the classification depends on *)

Lemma classify_item_bodies (a1 a2 : authority) (species : string)
  (item : pyval) :
  (forall id, body (point_get a1 id) = body (point_get a2 id)) ->
  classify_item a1 species item = classify_item a2 species item.
Proof.
  intros Hb. unfold classify_item, resolve_current, json.
  destruct (py_getitem item "id") as [id|e]; cbn [bind]; [|reflexivity].
  destruct (current_name_id item) as [cid|e]; cbn [bind]; [|reflexivity].
  rewrite (Hb cid). reflexivity.
Qed.

(** X11: the status code of a point lookup is never looked at: two
    authorities that answer the batch queries alike, and the point lookups
    with the same bodies, give the same report and summary. *)
Theorem X11_lookup_status_code_ignored (a1 a2 : authority)
  (species_list : list string) (batch_size : Z) :
  (forall filter, batch_get a1 filter = batch_get a2 filter) ->
  (forall id, body (point_get a1 id) = body (point_get a2 id)) ->
  get_current_names_batch a1 species_list batch_size
  = get_current_names_batch a2 species_list batch_size.
Proof.
  intros Hbatch Hbody. unfold get_current_names_batch.
  destruct (batch species_list batch_size) as [bs|e]; cbn [bind];
    [|reflexivity].
  rewrite (foldM_ext_in (process_batch a1) (process_batch a2));
    [reflexivity|].
  intros b _ st. unfold process_batch. rewrite Hbatch.
  destruct (negb (status_code (batch_get a2 (filter_str b)) =? 200)%Z);
    [reflexivity|].
  destruct (json (batch_get a2 (filter_str b))) as [data|e]; cbn [bind];
    [|reflexivity].
  destruct (py_get data "items" (PList [])) as [items|e]; cbn [bind];
    [|reflexivity].
  apply foldM_ext_in. intros sp _ st'. unfold classify_step, classify.
  destruct (py_iter items) as [records|e]; cbn [bind]; [|reflexivity].
  destruct (select_canonical sp records) as [[s|item]|e]; cbn [bind];
    try reflexivity.
  rewrite (classify_item_bodies a1 a2 sp item Hbody). reflexivity.
Qed.

Lemma X11_lookup_status_code_ignored_witness :
  (forall filter,
     batch_get Sample.auth_db filter
     = batch_get MoreSamples.auth_db_500 filter) /\
  (forall id,
     body (point_get Sample.auth_db id)
     = body (point_get MoreSamples.auth_db_500 id)) /\
  get_current_names_batch Sample.auth_db Sample.two_species 20
  = get_current_names_batch MoreSamples.auth_db_500 Sample.two_species 20.
Proof.
  assert (H1 : forall filter,
            batch_get Sample.auth_db filter
            = batch_get MoreSamples.auth_db_500 filter)
    by (intros filter; reflexivity).
  assert (H2 : forall id,
            body (point_get Sample.auth_db id)
            = body (point_get MoreSamples.auth_db_500 id))
    by (intros id; reflexivity).
  split; [exact H1|]. split; [exact H2|].
  exact (X11_lookup_status_code_ignored Sample.auth_db
           MoreSamples.auth_db_500 Sample.two_species 20 H1 H2).
Defined.

Lemma filterM_ext {A : Type} (f g : A -> res bool) (l : list A) :
  (forall a, f a = g a) -> filterM f l = filterM g l.
Proof.
  intros H. induction l as [|a l IH]; cbn [filterM]; [reflexivity|].
  now rewrite H, IH.
Qed.

Lemma select_canonical_case (sp sp' : string) (records : list pyval) :
  PyStr.lower sp = PyStr.lower sp' ->
  select_canonical sp records = select_canonical sp' records.
Proof.
  intros H. unfold select_canonical.
  rewrite (filterM_ext (name_matches sp) (name_matches sp')).
  - rewrite H. reflexivity.
  - intros item. unfold name_matches.
    rewrite (lower_eq_strip sp sp' H). reflexivity.
Qed.

Lemma classify_item_outcome (auth : authority) (sp sp' : string)
  (item : pyval) :
  outcome (classify_item auth sp item) = outcome (classify_item auth sp' item).
Proof.
  unfold classify_item.
  destruct (py_getitem item "id") as [id|e]; cbn [bind]; [|reflexivity].
  destruct (current_name_id item) as [cid|e]; cbn [bind]; [|reflexivity].
  destruct (negb (truthy cid)); [reflexivity|].
  destruct (py_eq id cid).
  - destruct (py_getitem item "name"); reflexivity.
  - destruct (resolve_current auth cid); reflexivity.
Qed.

(** X12: the classification does not depend on the letter case of the query
    name: two query names that are equal once lower-cased get the same
    status and the same resolved name (or the same exception) on the same
    answer. *)
Theorem X12_query_case_insensitive (auth : authority) (items : pyval)
  (sp sp' : string) :
  PyStr.lower sp = PyStr.lower sp' ->
  outcome (classify auth items sp) = outcome (classify auth items sp').
Proof.
  intros H. unfold classify.
  destruct (py_iter items) as [records|e]; cbn [bind]; [|reflexivity].
  rewrite (select_canonical_case sp sp' records H).
  destruct (select_canonical sp' records) as [[s|item]|e]; cbn [bind];
    try reflexivity.
  apply classify_item_outcome.
Qed.

Lemma X12_query_case_insensitive_witness :
  PyStr.lower "AMANITA muscaria" = PyStr.lower "Amanita Muscaria" /\
  outcome (classify Sample.auth_db (PList [Sample.amanita; Sample.boletus])
             "AMANITA muscaria")
  = outcome (classify Sample.auth_db (PList [Sample.amanita; Sample.boletus])
               "Amanita Muscaria").
Proof.
  assert (H : PyStr.lower "AMANITA muscaria" = PyStr.lower "Amanita Muscaria")
    by reflexivity.
  split; [exact H|].
  exact (X12_query_case_insensitive Sample.auth_db
           (PList [Sample.amanita; Sample.boletus])
           "AMANITA muscaria" "Amanita Muscaria" H).
Defined.

(** X13: only a name that is classified [not_current] needs the point
    lookup: a row with any other status is the same whatever the point
    lookups answer. *)
Theorem X13_lookup_only_for_not_current (a1 a2 : authority) (items : pyval)
  (species : string) (r : row) :
  classify a1 items species = Ok r ->
  row_status r <> not_current ->
  classify a2 items species = Ok r.
Proof.
  unfold classify.
  destruct (py_iter items) as [records|e]; cbn [bind]; [|discriminate].
  destruct (select_canonical species records) as [[s|item]|e]; cbn [bind];
    [auto | | discriminate].
  unfold classify_item.
  destruct (py_getitem item "id") as [id|e]; cbn [bind]; [|discriminate].
  destruct (current_name_id item) as [cid|e]; cbn [bind]; [|discriminate].
  destruct (negb (truthy cid)); [auto|].
  destruct (py_eq id cid); [auto|].
  destruct (resolve_current a1 cid) as [p|e]; cbn [bind]; [|discriminate].
  intros [= <-] Hs. exfalso. apply Hs. reflexivity.
Qed.

Lemma X13_lookup_only_for_not_current_witness :
  classify Sample.auth_db (PList [Sample.amanita; Sample.boletus])
           "Amanita muscaria"
  = Ok {| row_query := "Amanita muscaria"; row_status := current;
          row_name := PStr "Amanita muscaria" |} /\
  current <> not_current /\
  classify Sample.auth_broken_link (PList [Sample.amanita; Sample.boletus])
           "Amanita muscaria"
  = Ok {| row_query := "Amanita muscaria"; row_status := current;
          row_name := PStr "Amanita muscaria" |}.
Proof.
  assert (H2 : current <> not_current) by discriminate.
  split; [reflexivity|]. split; [exact H2|].
  exact (X13_lookup_only_for_not_current Sample.auth_db
           Sample.auth_broken_link (PList [Sample.amanita; Sample.boletus])
           "Amanita muscaria"
           {| row_query := "Amanita muscaria"; row_status := current;
              row_name := PStr "Amanita muscaria" |} eq_refl H2).
Defined.

(** ** The final summary of [main] *)

(** X14: when [main] ends without an exception, the total of non-blank lines
    that it prints is the sum of the two exclusion counts and of the number
    queried; with a batch size of 1 or more the report has one row for each
    queried name, in order, and the counts of the query results add up to
    the number queried. *)
Theorem X14_final_summary_adds_up (auth : authority)
  (species_lines : list string) (exclude_lines : option (list string))
  (batch_size : Z) (out : main_output) :
  main auth species_lines exclude_lines batch_size = Ok out ->
  total out = excluded_user out + excluded_ambig out + queried out /\
  summary_total (query_results out) = length (report out) /\
  ((0 < batch_size)%Z ->
   length (report out) = queried out /\
   map row_query (report out)
   = species_to_check
       (read_species_list species_lines
          match exclude_lines with
          | Some ls => read_exclusion_list ls
          | None => []
          end)).
Proof.
  unfold main.
  set (excl := match exclude_lines with
               | Some ls => read_exclusion_list ls
               | None => []
               end).
  destruct (get_current_names_batch auth
              (species_to_check (read_species_list species_lines excl))
              batch_size) as [[rows s]|e] eqn:Hrun; cbn [bind];
    [|discriminate].
  intros [= <-]. cbn [total excluded_user excluded_ambig queried
                      query_results report fst snd].
  destruct (read_species_list_eq excl species_lines) as (H1 & H2 & H3 & H4).
  cbv zeta in H2, H3, H4.
  pose proof (rows_length excl (stripped_lines species_lines)) as L.
  pose proof (reasons_split
                (flat_map (exclusion_row excl) (stripped_lines species_lines)))
    as Hsplit.
  assert (Hn : length (stripped_lines species_lines)
               = length (non_blank species_lines)) by apply length_map.
  split; [rewrite H1, H3, H4; lia|].
  destruct (run_new _ _ _ _ _ Hrun) as (bs & Hb & Hq & Hs).
  split.
  - rewrite Hs. unfold tally. rewrite summary_total_tally. reflexivity.
  - intros Hpos.
    assert (Hrows : map row_query rows
              = species_to_check (read_species_list species_lines excl)).
    { rewrite Hq. unfold batch in Hb.
      destruct ((batch_size <? 0)%Z || (sys_maxsize <? batch_size)%Z);
        [discriminate|].
      injection Hb as <-. apply batch_loop_concat. lia. }
    split; [|exact Hrows]. rewrite <- Hrows. symmetry. apply length_map.
Qed.

Lemma X14_final_summary_adds_up_witness :
  main Sample.auth_db Sample.mixed_lines (Some ["Russula emetica"; ""]) 20
  = Ok {| report :=
            [{| row_query := "Amanita muscaria"; row_status := current;
                row_name := PStr "Amanita muscaria" |}];
          total := 5; excluded_user := 1; excluded_ambig := 3; queried := 1;
          query_results := bump current summary_init |} /\
  (5 = 1 + 3 + 1 /\
   summary_total (bump current summary_init) = 1 /\
   ((0 < 20)%Z ->
    1 = 1 /\
    ["Amanita muscaria"]
    = species_to_check
        (read_species_list Sample.mixed_lines
           (read_exclusion_list ["Russula emetica"; ""])))).
Proof.
  split; [reflexivity|].
  exact (X14_final_summary_adds_up Sample.auth_db Sample.mixed_lines
           (Some ["Russula emetica"; ""]) 20 _ eq_refl).
Defined.

(** ** The rows of a report *)

Lemma classify_steps_rows (auth : authority) (items : pyval)
  (l : list string) (st st' : run_state) :
  foldM (classify_step auth items) l st = Ok st' ->
  exists new,
    results st' = results st ++ new /\
    Forall2 (fun sp r => classify auth items sp = Ok r) l new.
Proof.
  revert st. induction l as [|sp l IH]; intros st; cbn [foldM].
  - intros [= <-]. exists []. rewrite app_nil_r. split; constructor.
  - unfold classify_step at 1.
    destruct (classify auth items sp) as [r|e] eqn:Hc; cbn [bind];
      [|discriminate].
    intros H. destruct (IH _ H) as (new & Hr & Hf).
    exists (r :: new). split.
    + rewrite Hr. cbn. rewrite <- app_assoc. reflexivity.
    + constructor; assumption.
Qed.

Lemma canonical_name_is_string (species : string) (records : list pyval)
  (item v : pyval) :
  select_canonical species records = Ok (Canonical item) ->
  py_getitem item "name" = Ok v ->
  exists name, v = PStr name.
Proof.
  intros Hs Hv. apply select_canonical_in in Hs as (_ & Hsame & _).
  apply same_name_named in Hsame.
  unfold named_record, record_name in Hsame. unfold py_getitem in Hv.
  destruct item as [| | | |l|d]; try discriminate.
  destruct (dict_get d "name") as [[| | |name| |]|]; try discriminate.
  injection Hv as <-. eauto.
Qed.

Lemma classify_row_format (auth : authority) (items : pyval)
  (species : string) (r : row) :
  classify auth items species = Ok r ->
  row_format r /\ row_status r <> error.
Proof.
  unfold classify.
  destruct (py_iter items) as [records|e]; cbn [bind]; [|discriminate].
  destruct (select_canonical species records) as [[s|item]|e] eqn:Hs;
    cbn [bind]; [| |discriminate].
  - intros [= <-]. unfold row_format. cbn.
    unfold select_canonical in Hs.
    destruct (filterM (name_matches species) records) as [m|e];
      cbn [bind] in Hs; [|discriminate].
    destruct m as [|first [|second rest]].
    + destruct (lowered_name_in _ _) as [[]|]; cbn [bind] in Hs;
        try discriminate; injection Hs as <-; split;
        (reflexivity || discriminate).
    + discriminate.
    + destruct (mapM current_name_id _) as [ids|e]; cbn [bind] in Hs;
        [|discriminate].
      destruct (all_agree ids); [discriminate|]. injection Hs as <-.
      split; [reflexivity | discriminate].
  - unfold classify_item.
    destruct (py_getitem item "id") as [id|e]; cbn [bind]; [|discriminate].
    destruct (current_name_id item) as [cid|e]; cbn [bind]; [|discriminate].
    destruct (negb (truthy cid)).
    { intros [= <-]. unfold row_format. cbn.
      split; [reflexivity | discriminate]. }
    destruct (py_eq id cid).
    + destruct (py_getitem item "name") as [v|e] eqn:Hv; cbn [bind];
        [|discriminate].
      intros [= <-]. unfold row_format. cbn.
      split; [exact (canonical_name_is_string _ _ _ _ Hs Hv) | discriminate].
    + destruct (resolve_current auth cid) as [p|e]; cbn [bind];
        [|discriminate].
      intros [= <-]. unfold row_format. cbn. split; [exact I | discriminate].
Qed.

Lemma mark_errors_rows (l : list string) (st : run_state) :
  results (mark_errors st l)
  = results st
    ++ map (fun sp => {| row_query := sp; row_status := error;
                         row_name := NA |}) l.
Proof. apply mark_errors_eq. Qed.

Lemma process_batch_forall (P : row -> Prop) (auth : authority)
  (b : list string) (st st' : run_state) :
  (forall items sp r, classify auth items sp = Ok r -> P r) ->
  (forall sp, P {| row_query := sp; row_status := error; row_name := NA |}) ->
  Forall P (results st) ->
  process_batch auth st b = Ok st' ->
  Forall P (results st').
Proof.
  intros Hclass Herr Hst. unfold process_batch.
  destruct (negb (status_code (batch_get auth (filter_str b)) =? 200)%Z).
  - intros [= <-]. rewrite mark_errors_rows. apply Forall_app.
    split; [exact Hst|]. apply Forall_map, Forall_forall. intros sp _.
    apply Herr.
  - destruct (json (batch_get auth (filter_str b))) as [data|e]; cbn [bind];
      [|discriminate].
    destruct (py_get data "items" (PList [])) as [items|e]; cbn [bind];
      [|discriminate].
    intros H. destruct (classify_steps_rows _ _ _ _ _ H) as (new & -> & Hf).
    apply Forall_app. split; [exact Hst|].
    clear H. induction Hf as [|sp r l new Hc _ IH].
    + constructor.
    + constructor; [apply (Hclass _ _ _ Hc) | exact IH].
Qed.

Lemma run_forall (P : row -> Prop) (auth : authority) (l : list string)
  (n : Z) (rows : list row) (s : summary) :
  (forall items sp r, classify auth items sp = Ok r -> P r) ->
  (forall sp, P {| row_query := sp; row_status := error; row_name := NA |}) ->
  get_current_names_batch auth l n = Ok (rows, s) ->
  Forall P rows.
Proof.
  intros Hclass Herr. unfold get_current_names_batch.
  destruct (batch l n) as [bs|e]; cbn [bind]; [|discriminate].
  assert (H : forall bs st st', Forall P (results st) ->
            foldM (process_batch auth) bs st = Ok st' ->
            Forall P (results st')).
  { clear bs. induction bs as [|b bs IH]; intros st st' Hst; cbn [foldM].
    - intros [= <-]. exact Hst.
    - destruct (process_batch auth st b) as [st1|e] eqn:Hb; cbn [bind];
        [|discriminate].
      apply IH. exact (process_batch_forall P auth b st st1 Hclass Herr Hst Hb). }
  destruct (foldM (process_batch auth) bs run_init) as [st|e] eqn:Hrun;
    cbn [bind]; [|discriminate].
  intros [= <- <-]. apply (H bs run_init st); [constructor | exact Hrun].
Qed.

(** X15: in every row of a report the resolved name is "NA" unless the
    status is [current], where it is a string (the name of the canonical
    record), or [not_current], where it is what the point lookup
    returned. *)
Theorem X15_resolved_name_format (auth : authority)
  (species_list : list string) (batch_size : Z) (rows : list row)
  (s : summary) :
  get_current_names_batch auth species_list batch_size = Ok (rows, s) ->
  Forall row_format rows.
Proof.
  apply run_forall.
  - intros items sp r H. apply (classify_row_format _ _ _ _ H).
  - intros sp. reflexivity.
Qed.

Lemma X15_resolved_name_format_witness :
  get_current_names_batch Sample.auth_missing_link Sample.two_species 20
  = Ok ([{| row_query := "Amanita muscaria"; row_status := current;
            row_name := PStr "Amanita muscaria" |};
         {| row_query := "Boletus edulis"; row_status := not_current;
            row_name := unknown |}],
        bump not_current (bump current summary_init)) /\
  Forall row_format
    [{| row_query := "Amanita muscaria"; row_status := current;
        row_name := PStr "Amanita muscaria" |};
     {| row_query := "Boletus edulis"; row_status := not_current;
        row_name := unknown |}].
Proof.
  split; [reflexivity|].
  exact (X15_resolved_name_format Sample.auth_missing_link Sample.two_species
           20 _ _ eq_refl).
Defined.

(** X16: a name gets the status [error] only through the failure of the
    query of its batch: the rows of a batch whose query is answered with
    status 200 are the classifications of its names, in order, and none has
    the status [error]. *)
Theorem X16_error_only_from_failed_batch (auth : authority)
  (species_batch : list string) (st st' : run_state) :
  status_code (batch_get auth (filter_str species_batch)) = 200%Z ->
  process_batch auth st species_batch = Ok st' ->
  exists items new,
    results st' = results st ++ new /\
    Forall2 (fun sp r => classify auth items sp = Ok r) species_batch new /\
    Forall (fun r => row_status r <> error) new.
Proof.
  intros Hcode. unfold process_batch. rewrite Hcode.
  cbn [Z.eqb Pos.eqb negb].
  destruct (json (batch_get auth (filter_str species_batch))) as [data|e];
    cbn [bind]; [|discriminate].
  destruct (py_get data "items" (PList [])) as [items|e]; cbn [bind];
    [|discriminate].
  intros H. destruct (classify_steps_rows _ _ _ _ _ H) as (new & Hr & Hf).
  exists items, new. split; [exact Hr|]. split; [exact Hf|].
  clear Hr H Hcode. induction Hf as [|sp r l new Hc _ IH].
  - constructor.
  - constructor; [apply (classify_row_format _ _ _ _ Hc) | exact IH].
Qed.

Lemma X16_error_only_from_failed_batch_witness :
  status_code (batch_get Sample.auth_db (filter_str Sample.two_species))
  = 200%Z /\
  process_batch Sample.auth_db run_init Sample.two_species
  = Ok (record_row
          (record_row run_init
             {| row_query := "Amanita muscaria"; row_status := current;
                row_name := PStr "Amanita muscaria" |})
          {| row_query := "Boletus edulis"; row_status := not_current;
             row_name := PStr "Boletus edulis var. albus" |}) /\
  exists items new,
    results (record_row
               (record_row run_init
                  {| row_query := "Amanita muscaria"; row_status := current;
                     row_name := PStr "Amanita muscaria" |})
               {| row_query := "Boletus edulis"; row_status := not_current;
                  row_name := PStr "Boletus edulis var. albus" |})
    = results run_init ++ new /\
    Forall2 (fun sp r => classify Sample.auth_db items sp = Ok r)
            Sample.two_species new /\
    Forall (fun r => row_status r <> error) new.
Proof.
  split; [reflexivity|]. split; [reflexivity|].
  exact (X16_error_only_from_failed_batch Sample.auth_db Sample.two_species
           run_init _ eq_refl eq_refl).
Defined.

(** ** Records that do not count *)

Lemma forallb_filter {A : Type} (f g : A -> bool) (l : list A) :
  forallb f l = true -> forallb f (filter g l) = true.
Proof.
  intros H. apply forallb_forall. intros x Hx. apply filter_In in Hx as [Hx _].
  exact (forallb_In _ _ _ H Hx).
Qed.

Lemma filter_idem {A : Type} (f : A -> bool) (l : list A) :
  filter f (filter f l) = filter f l.
Proof.
  induction l as [|x l IH]; cbn [filter]; [reflexivity|].
  destruct (f x) eqn:E; cbn [filter]; [rewrite E, IH|]; auto.
Qed.

(** X17: when every record of the answer has a string for a name, the row of
    a query name is the one that the records bearing this name (letter case
    and surrounding white space apart) give alone: the records that the
    authority returns for other names starting alike, or for the other names
    of the batch, do not count. *)
Theorem X17_other_names_do_not_count (auth : authority)
  (records : list pyval) (species : string) :
  forallb named_record records = true ->
  classify auth (PList records) species
  = classify auth (PList (filter (same_name species) records)) species.
Proof.
  intros Hn. apply classify_ext.
  - exact Hn.
  - apply forallb_filter, Hn.
  - symmetry. apply filter_idem.
Qed.

Lemma X17_other_names_do_not_count_witness :
  forallb named_record [Sample.amanita; Sample.boletus] = true /\
  classify Sample.auth_db (PList [Sample.amanita; Sample.boletus])
           "Boletus edulis"
  = classify Sample.auth_db
      (PList (filter (same_name "Boletus edulis")
                [Sample.amanita; Sample.boletus]))
      "Boletus edulis".
Proof.
  split; [reflexivity|].
  exact (X17_other_names_do_not_count Sample.auth_db
           [Sample.amanita; Sample.boletus] "Boletus edulis" eq_refl).
Defined.

(** X18: when a query name has a match that is neither illegitimate nor
    invalid, the illegitimate and invalid records of the answer are ignored:
    the row is the one that the answer without them gives. *)
Theorem X18_invalid_records_ignored (auth : authority)
  (records : list pyval) (species : string) (item : pyval) :
  forallb named_record records = true ->
  In item records ->
  same_name species item = true ->
  excluded_status item = false ->
  classify auth (PList records) species
  = classify auth (PList (valid_records records)) species.
Proof.
  intros Hn Hin Hsame Hvalid. unfold classify. cbn [py_iter bind].
  assert (Hs : select_canonical species records
               = select_canonical species (valid_records records)).
  { unfold select_canonical, valid_records.
    rewrite (filterM_name_matches species records Hn).
    rewrite (filterM_name_matches species _
               (forallb_filter _ (fun i => negb (excluded_status i)) _ Hn)).
    cbn [bind].
    assert (Hf : filter (fun i => same_name species i
                                  && negb (excluded_status i))
                   (filter (fun i => negb (excluded_status i)) records)
                 = filter (fun i => same_name species i
                                    && negb (excluded_status i)) records).
    { clear. induction records as [|x l IH]; cbn [filter]; [reflexivity|].
      destruct (excluded_status x) eqn:E; cbn [negb filter].
      - rewrite andb_false_r. exact IH.
      - rewrite E. cbn [negb]. rewrite IH. reflexivity. }
    rewrite Hf.
    destruct (filter (fun i => same_name species i
                               && negb (excluded_status i)) records)
      as [|first rest] eqn:Hm; [|reflexivity].
    exfalso. assert (Hi : In item []); [|exact Hi].
    rewrite <- Hm. apply filter_In. split; [exact Hin|].
    rewrite Hsame, Hvalid. reflexivity. }
  rewrite Hs. reflexivity.
Qed.

Lemma X18_invalid_records_ignored_witness :
  forallb named_record [Sample.invalid_amanita; Sample.amanita] = true /\
  In Sample.amanita [Sample.invalid_amanita; Sample.amanita] /\
  same_name "Amanita muscaria" Sample.amanita = true /\
  excluded_status Sample.amanita = false /\
  classify Sample.auth_db (PList [Sample.invalid_amanita; Sample.amanita])
           "Amanita muscaria"
  = classify Sample.auth_db
      (PList (valid_records [Sample.invalid_amanita; Sample.amanita]))
      "Amanita muscaria".
Proof.
  assert (Hin : In Sample.amanita [Sample.invalid_amanita; Sample.amanita])
    by (right; left; reflexivity).
  split; [reflexivity|]. split; [exact Hin|]. split; [reflexivity|].
  split; [reflexivity|].
  exact (X18_invalid_records_ignored Sample.auth_db
           [Sample.invalid_amanita; Sample.amanita] "Amanita muscaria"
           Sample.amanita eq_refl Hin eq_refl eq_refl).
Defined.

(** ** Names that are never reported *)

Lemma batch_concat_incl {A : Type} (l : list A) (n : Z) (bs : list (list A)) :
  batch l n = Ok bs -> incl (concat bs) l.
Proof.
  unfold batch.
  destruct ((n <? 0)%Z || (sys_maxsize <? n)%Z); [discriminate|].
  intros [= <-]. destruct (Z.to_nat n) as [|k] eqn:E.
  - rewrite batch_loop_zero. intros x [].
  - rewrite batch_loop_concat by lia. apply incl_refl.
Qed.

(** X19: whatever the batch size, when [main] ends without an exception the
    query name of every row of the report is a non-blank line of the species
    file, stripped; it is not a line of the exclusion file (stripped), and
    none of the markers occurs in it: an excluded name is never queried nor
    reported. *)
Theorem X19_excluded_names_never_reported (auth : authority)
  (species_lines exclude_lines : list string) (batch_size : Z)
  (out : main_output) (r : row) :
  main auth species_lines (Some exclude_lines) batch_size = Ok out ->
  In r (report out) ->
  (exists line, In line species_lines /\ PyStr.strip line = row_query r) /\
  row_query r <> "" /\
  (forall line, In line exclude_lines -> PyStr.strip line <> row_query r) /\
  (forall marker, In marker excluded_characters ->
                  ~ substring marker (row_query r)).
Proof.
  unfold main.
  destruct (get_current_names_batch auth _ batch_size) as [[rows s]|e] eqn:Hrun;
    cbn [bind]; [|discriminate].
  intros [= <-]. cbn [report fst]. intros Hr.
  destruct (run_new _ _ _ _ _ Hrun) as (bs & Hb & Hq & _).
  assert (Hin : In (row_query r)
                  (species_to_check
                     (read_species_list species_lines
                        (read_exclusion_list exclude_lines)))).
  { apply (batch_concat_incl _ _ _ Hb). rewrite <- Hq.
    apply in_map, Hr. }
  destruct (query_name_facts _ _ _ Hin) as (Hline & _ & Hnb & Hex & Hmark).
  split; [exact Hline|]. split; [exact Hnb|]. split; [|exact Hmark].
  intros line Hl E. apply Hex.
  change (read_exclusion_list exclude_lines)
    with (stripped_lines exclude_lines).
  apply stripped_lines_In. exists line. auto.
Qed.

Lemma X19_excluded_names_never_reported_witness :
  main Sample.auth_db Sample.mixed_lines (Some ["Russula emetica"; ""]) 20
  = Ok {| report :=
            [{| row_query := "Amanita muscaria"; row_status := current;
                row_name := PStr "Amanita muscaria" |}];
          total := 5; excluded_user := 1; excluded_ambig := 3; queried := 1;
          query_results := bump current summary_init |} /\
  In {| row_query := "Amanita muscaria"; row_status := current;
        row_name := PStr "Amanita muscaria" |}
     [{| row_query := "Amanita muscaria"; row_status := current;
         row_name := PStr "Amanita muscaria" |}] /\
  (exists line, In line Sample.mixed_lines /\
                PyStr.strip line = "Amanita muscaria") /\
  "Amanita muscaria" <> "" /\
  (forall line, In line ["Russula emetica"; ""] ->
                PyStr.strip line <> "Amanita muscaria") /\
  (forall marker, In marker excluded_characters ->
                  ~ substring marker "Amanita muscaria").
Proof.
  assert (Hin : In {| row_query := "Amanita muscaria"; row_status := current;
                      row_name := PStr "Amanita muscaria" |}
                   [{| row_query := "Amanita muscaria"; row_status := current;
                       row_name := PStr "Amanita muscaria" |}])
    by (left; reflexivity).
  split; [reflexivity|]. split; [exact Hin|].
  exact (X19_excluded_names_never_reported Sample.auth_db Sample.mixed_lines
           ["Russula emetica"; ""] 20 _ _ eq_refl Hin).
Defined.
